(** * Model selection and recognition for per-word hidden Markov models

    A shallow embedding of [my_model_selectors.py] and [my_recognizer.py].

    - Python floats are IEEE-754 binary64 numbers: Rocq's primitive [float],
      with NaN and the two infinities.
    - A Python call that may raise is a value of [result]; a [try]/[except]
      is a [match] on it.
    - A Python [dict] is an insertion-ordered association list.
    - The HMM engine (hmmlearn's [fit] and [score]) and the two numpy
      functions the selectors call ([np.log], [np.mean]) are parameters of
      the development.
    - The warning filters and the [verbose] prints change no result and
      are left out. *)

From Stdlib Require Import ZArith List Bool Lia String Sorted Permutation.
From Stdlib Require Import Floats.
Import ListNotations.

(* ------------------------------------------------------------------ *)
(** ** Exceptions *)

Inductive exn : Type :=
| ValueError
| TypeError
| AttributeError
| IndexError
| KeyError
| EngineError (code : Z).

Inductive result (A : Type) : Type :=
| Ok (a : A)
| Raise (e : exn).

Arguments Ok {A} a.
Arguments Raise {A} e.

Definition bind {A B : Type} (r : result A) (k : A -> result B) : result B :=
  match r with
  | Ok a => k a
  | Raise e => Raise e
  end.

Notation "x <- e ;; k" := (bind e (fun x => k))
  (at level 61, e at next level, right associativity).
Notation "' p <- e ;; k" := (bind e (fun x => match x with p => k end))
  (at level 61, p pattern, e at next level, right associativity).

(** A list comprehension whose body may raise: the first exception ends it. *)
Fixpoint mapM {A B : Type} (f : A -> result B) (l : list A) : result (list B) :=
  match l with
  | [] => Ok []
  | a :: t => b <- f a ;; bs <- mapM f t ;; Ok (b :: bs)
  end.

(* ------------------------------------------------------------------ *)
(** ** Python floats *)

Module PyFloat.

Definition lt (x y : float) : bool := PrimFloat.ltb x y.
Definition gt (x y : float) : bool := PrimFloat.ltb y x.
Definition le (x y : float) : bool := PrimFloat.leb x y.
Definition ge (x y : float) : bool := PrimFloat.leb y x.

(** [float(z)] for a Python int, rounded to nearest. *)
Definition of_int (z : Z) : float :=
  SF2Prim (binary_normalize prec emax z 0 false).

Definition inf : float := infinity.
Definition neg_inf : float := neg_infinity.

Definition is_nan (x : float) : bool := PrimFloat.is_nan x.
Definition is_finite (x : float) : bool := PrimFloat.is_finite x.

End PyFloat.

(* ------------------------------------------------------------------ *)
(** ** Dictionaries and ranges *)

Definition dict (V : Type) : Type := list (string * V).

Fixpoint dict_set {V : Type} (d : dict V) (k : string) (v : V) : dict V :=
  match d with
  | [] => [(k, v)]
  | (k', v') :: t =>
      if String.eqb k' k then (k', v) :: t else (k', v') :: dict_set t k v
  end.

Fixpoint dict_getitem {V : Type} (d : dict V) (k : string) : result V :=
  match d with
  | [] => Raise KeyError
  | (k', v') :: t => if String.eqb k' k then Ok v' else dict_getitem t k
  end.

Definition dict_keys {V : Type} (d : dict V) : list string := map fst d.
Definition dict_values {V : Type} (d : dict V) : list V := map snd d.
Definition dict_items {V : Type} (d : dict V) : list (string * V) := d.

(** [range(start, stop)] over Python ints. *)
Definition py_range (start stop : Z) : list Z :=
  map (fun i => (start + Z.of_nat i)%Z) (seq 0 (Z.to_nat (stop - start))).

(** [max(l, key=key)]: the key is computed once per item, an item replaces
    the current maximum only when its key is strictly greater, and an empty
    argument raises [ValueError]. *)
Fixpoint py_max_from {A : Type} (key : A -> result float)
    (maxitem : A) (maxval : float) (l : list A) : result A :=
  match l with
  | [] => Ok maxitem
  | item :: t =>
      val <- key item ;;
      if PyFloat.gt val maxval then py_max_from key item val t
      else py_max_from key maxitem maxval t
  end.

Definition py_max {A : Type} (l : list A) (key : A -> result float) : result A :=
  match l with
  | [] => Raise ValueError
  | item :: t => maxval <- key item ;; py_max_from key item maxval t
  end.

(* ------------------------------------------------------------------ *)
(** ** Data *)

(** A feature frame, a sequence of frames, and a feature matrix (one row
    per frame). *)
Definition frame : Type := list float.
Definition sequence : Type := list frame.
Definition matrix : Type := list frame.
Definition Xlengths : Type := (matrix * list nat)%type.

(** What [fit] leaves on a [GaussianHMM]. *)
Record Fitted : Type := mkFitted {
  n_features : Z;
  startprob_ : list float;
  transmat_ : list (list float);
  means_ : list (list float);
  covars_ : list (list float)
}.

(** A [GaussianHMM] object: the constructor's arguments and, once fitted,
    the estimated parameters.  [n_components] may be [None]. *)
Record GaussianHMM : Type := mkGaussianHMM {
  n_components : option Z;
  covariance_type : string;
  n_iter : Z;
  hmm_random_state : Z;
  hmm_verbose : bool;
  fitted : option Fitted
}.

(** The fields of a [ModelSelector]. *)
Record ModelSelector : Type := mkModelSelector {
  words : dict (list sequence);
  hwords : dict Xlengths;
  sequences : list sequence;
  X : matrix;
  lengths : list nat;
  this_word : string;
  n_constant : Z;
  min_n_components : Z;
  max_n_components : Z;
  random_state : Z;
  verbose : bool
}.


(** The test set as [recognize] reads it: [get_all_Xlengths()] is a dict
    from the item's index to its (X, lengths); [.values()] lists the items
    in that dict's order. *)
Record SinglesData : Type := mkSinglesData {
  get_all_Xlengths : list (Z * Xlengths)
}.

(* ------------------------------------------------------------------ *)
(** ** The external engine *)

(** hmmlearn's [fit] and [score] on a [GaussianHMM], and numpy's [log] and
    [mean].  A call of the first two may raise; the numpy functions return
    a float on every argument ([np.mean] of an empty list is NaN). *)
Record Engine : Type := mkEngine {
  engine_fit : GaussianHMM -> matrix -> list nat -> result Fitted;
  engine_score : GaussianHMM -> matrix -> list nat -> result float;
  np_log : float -> float;
  np_mean : list float -> float
}.

(** sklearn's [KFold(n_splits).split(samples)] without shuffling: the
    first [n mod k] folds hold [n / k + 1] consecutive indices, the others
    [n / k]; each fold is paired with the remaining indices in increasing
    order.  Fewer than two splits, or more splits than samples, raise. *)
Definition fold_sizes (n_splits n_samples : nat) : list nat :=
  map (fun i => n_samples / n_splits + (if i <? n_samples mod n_splits then 1 else 0))
      (seq 0 n_splits).

Fixpoint kfold_from (n_samples current : nat) (sizes : list nat)
    : list (list nat * list nat) :=
  match sizes with
  | [] => []
  | fold_size :: t =>
      let stop := current + fold_size in
      let test_idx := seq current fold_size in
      let train_idx := seq 0 current ++ seq stop (n_samples - stop) in
      (train_idx, test_idx) :: kfold_from n_samples stop t
  end.

Definition KFold_split (n_splits n_samples : nat)
    : result (list (list nat * list nat)) :=
  if n_splits <? 2 then Raise ValueError
  else if n_samples <? n_splits then Raise ValueError
  else Ok (kfold_from n_samples 0 (fold_sizes n_splits n_samples)).

(** Modelled from the spec: [asl_utils.combine_sequences], the
    cross-validation splitter's second half, is not among the sources.  It
    reconstitutes an (X, lengths) pair from the sequences selected by an
    index list: the frames of the chosen sequences in order, with one
    length per chosen sequence. *)
Definition combine_sequences (split_index_list : list nat)
    (seqs : list sequence) : result Xlengths :=
  sequences_fold <-
    mapM (fun idx => match nth_error seqs idx with
                     | Some s => Ok s
                     | None => Raise IndexError
                     end) split_index_list ;;
  Ok (List.concat sequences_fold, map (@List.length frame) sequences_fold).

(* ------------------------------------------------------------------ *)
(** ** The selectors *)

Section Selectors.

Variable E : Engine.

(** [GaussianHMM(n_components=.., covariance_type="diag", n_iter=1000,
    random_state=.., verbose=False)] *)
Definition GaussianHMM_new (num_states : option Z) (seed : Z) : GaussianHMM :=
  mkGaussianHMM num_states "diag" 1000 seed false None.

(** [.fit(X, lengths)] estimates the parameters and returns the object
    itself. *)
Definition GaussianHMM_fit (m : GaussianHMM) (x : matrix) (ls : list nat)
    : result GaussianHMM :=
  f <- engine_fit E m x ls ;;
  Ok (mkGaussianHMM (n_components m) (covariance_type m) (n_iter m)
        (hmm_random_state m) (hmm_verbose m) (Some f)).

(** [hmm_model.score(X, lengths)] where [hmm_model] may be [None]. *)
Definition py_score (hmm_model : option GaussianHMM) (x : matrix)
    (ls : list nat) : result float :=
  match hmm_model with
  | None => Raise AttributeError
  | Some m => engine_score E m x ls
  end.

(** [hmm_model.n_features] *)
Definition py_n_features (hmm_model : option GaussianHMM) : result Z :=
  match hmm_model with
  | None => Raise AttributeError
  | Some m =>
      match fitted m with
      | Some f => Ok (n_features f)
      | None => Raise AttributeError
      end
  end.

(** [ModelSelector.base_model]; the optional prints are left out. *)
Definition base_model (self : ModelSelector) (num_states : option Z)
    : result (option GaussianHMM) :=
  match GaussianHMM_fit (GaussianHMM_new num_states (random_state self))
          (X self) (lengths self) with
  | Ok hmm_model => Ok (Some hmm_model)
  | Raise _ => Ok None
  end.

(** [SelectorConstant.select] *)
Definition SelectorConstant_select (self : ModelSelector)
    : result (option GaussianHMM) :=
  let best_num_components := n_constant self in
  base_model self (Some best_num_components).

(** The BIC score of lines 87-89. *)
Definition BIC_score (self : ModelSelector) (num_states nf : Z)
    (logL : float) : float :=
  let p := (num_states ^ 2 + 2 * num_states * nf - 1)%Z in
  let logN := np_log E (PyFloat.of_int (Z.of_nat (List.length (X self)))) in
  (PyFloat.of_int (-2) * logL + PyFloat.of_int p * logN)%float.

(** The body of the [try] in [SelectorBIC.select]. *)
Definition BIC_try (self : ModelSelector) (num_states : Z)
    : result (option GaussianHMM * float) :=
  hmm_model <- base_model self (Some num_states) ;;
  logL <- py_score hmm_model (X self) (lengths self) ;;
  nf <- py_n_features hmm_model ;;
  Ok (hmm_model, BIC_score self num_states nf logL).

Definition BIC_step (self : ModelSelector)
    (st : option GaussianHMM * float) (num_states : Z)
    : option GaussianHMM * float :=
  let '(best_model, best_score) := st in
  match BIC_try self num_states with
  | Ok (hmm_model, score) =>
      if PyFloat.lt score best_score then (hmm_model, score)
      else (best_model, best_score)
  | Raise _ => (best_model, best_score)
  end.

(** [SelectorBIC.select] *)
Definition SelectorBIC_select (self : ModelSelector)
    : result (option GaussianHMM) :=
  Ok (fst (fold_left (BIC_step self)
             (py_range (min_n_components self) (max_n_components self + 1))
             (None, PyFloat.inf))).

(** The anti-likelihood vector of [SelectorDIC.select]. *)
Definition anti_logL_vec (self : ModelSelector)
    (hmm_model : option GaussianHMM) : result (list float) :=
  mapM (fun '(_, (X_other, lengths_other)) =>
          py_score hmm_model X_other lengths_other)
       (filter (fun '(word, _) => negb (String.eqb word (this_word self)))
               (dict_items (hwords self))).

(** The body of the [try] in [SelectorDIC.select]. *)
Definition DIC_try (self : ModelSelector) (num_states : Z)
    : result (option GaussianHMM * float) :=
  hmm_model <- base_model self (Some num_states) ;;
  logL <- py_score hmm_model (X self) (lengths self) ;;
  anti <- anti_logL_vec self hmm_model ;;
  Ok (hmm_model, (logL - np_mean E anti)%float).

Definition DIC_step (self : ModelSelector)
    (st : option GaussianHMM * float) (num_states : Z)
    : option GaussianHMM * float :=
  let '(best_model, best_score) := st in
  match DIC_try self num_states with
  | Ok (hmm_model, score) =>
      if PyFloat.gt score best_score then (hmm_model, score)
      else (best_model, best_score)
  | Raise _ => (best_model, best_score)
  end.

(** [SelectorDIC.select] *)
Definition SelectorDIC_select (self : ModelSelector)
    : result (option GaussianHMM) :=
  Ok (fst (fold_left (DIC_step self)
             (py_range (min_n_components self) (max_n_components self + 1))
             (None, PyFloat.neg_inf))).

(** The number of folds [SelectorCV.select] asks of [KFold]. *)
Definition cv_n_splits (self : ModelSelector) : nat :=
  if List.length (sequences self) =? 2 then 2 else 3.

(** One fold: train on the training split, score the held-out split. *)
Definition cv_fold (self : ModelSelector) (num_states : Z)
    (fold : list nat * list nat) : result float :=
  let '(cv_train_idx, cv_test_idx) := fold in
  '(X_train, lengths_train) <- combine_sequences cv_train_idx (sequences self) ;;
  hmm_model <- GaussianHMM_fit
                 (GaussianHMM_new (Some num_states) (random_state self))
                 X_train lengths_train ;;
  '(X_test, lengths_test) <- combine_sequences cv_test_idx (sequences self) ;;
  engine_score E hmm_model X_test lengths_test.

(** The list [logL_vec] when the [try] body completes. *)
Definition cv_logL_vec (self : ModelSelector) (num_states : Z)
    : result (list float) :=
  if 1 <? List.length (sequences self) then
    folds <- KFold_split (cv_n_splits self) (List.length (sequences self)) ;;
    mapM (cv_fold self num_states) folds
  else
    hmm_model <- base_model self (Some num_states) ;;
    logL <- py_score hmm_model (X self) (lengths self) ;;
    Ok [logL].

(** The body of the [try] in [SelectorCV.select]. *)
Definition CV_try (self : ModelSelector) (num_states : Z) : result float :=
  logL_vec <- cv_logL_vec self num_states ;;
  Ok (np_mean E logL_vec).

Definition CV_step (self : ModelSelector) (st : option Z * float)
    (num_states : Z) : option Z * float :=
  let '(best_num_components, best_logL) := st in
  match CV_try self num_states with
  | Ok avg_logL =>
      if PyFloat.gt avg_logL best_logL then (Some num_states, avg_logL)
      else (best_num_components, best_logL)
  | Raise _ => (best_num_components, best_logL)
  end.

Definition CV_best_num_components (self : ModelSelector) : option Z :=
  fst (fold_left (CV_step self)
         (py_range (min_n_components self) (max_n_components self + 1))
         (None, PyFloat.neg_inf)).

(** [SelectorCV.select] *)
Definition SelectorCV_select (self : ModelSelector)
    : result (option GaussianHMM) :=
  base_model self (CV_best_num_components self).

(* ---------------------------------------------------------------- *)
(** ** The recognizer *)

(** The inner loop of [recognize]: one entry per model of the bank. *)
Definition score_entry (x : matrix) (ls : list nat)
    (probability_dict : dict float) (entry : string * option GaussianHMM)
    : dict float :=
  let '(word, model) := entry in
  match py_score model x ls with
  | Ok logL => dict_set probability_dict word logL
  | Raise _ => dict_set probability_dict word PyFloat.neg_inf
  end.

Definition score_table (models : dict (option GaussianHMM))
    (item : Xlengths) : dict float :=
  let '(x, ls) := item in
  fold_left (score_entry x ls) (dict_items models) [].

(** [max(probability_dict.keys(), key=lambda k: probability_dict[k])] *)
Definition best_guess (probability_dict : dict float) : result string :=
  py_max (dict_keys probability_dict)
         (fun k => dict_getitem probability_dict k).

Fixpoint recognize_loop (models : dict (option GaussianHMM))
    (items : list Xlengths) (probabilities : list (dict float))
    (guesses : list string) : result (list (dict float) * list string) :=
  match items with
  | [] => Ok (probabilities, guesses)
  | item :: rest =>
      let probability_dict := score_table models item in
      guess <- best_guess probability_dict ;;
      recognize_loop models rest (probabilities ++ [probability_dict])
                     (guesses ++ [guess])
  end.

(** [recognize] *)
Definition recognize (models : dict (option GaussianHMM))
    (test_set : SinglesData) : result (list (dict float) * list string) :=
  recognize_loop models (map snd (get_all_Xlengths test_set)) [] [].

End Selectors.

(* ------------------------------------------------------------------ *)
(** ** The search loop shared by the three selectors

    Each selector scans the candidate state counts in increasing order and
    replaces its best pair when the candidate's score is strictly better.
    [better] is the comparison of the loop and [weak] the matching
    non-strict one. *)

Section ScanDefs.

Variable B : Type.
Variables better weak : float -> float -> bool.
Variable cand : Z -> result (B * float).

Definition scan_step (st : B * float) (n : Z) : B * float :=
  match cand n with
  | Ok (b, s) => if better s (snd st) then (b, s) else st
  | Raise _ => st
  end.

(** What holds of the state after the scan of [l] from [(b0, init)]. *)
Definition scan_inv (b0 : B) (init : float) (l : list Z) (st : B * float)
    : Prop :=
  (st = (b0, init) /\
   forall n b s, In n l -> cand n = Ok (b, s) -> better s init = false)
  \/
  (exists l1 n l2,
      l = l1 ++ n :: l2 /\ cand n = Ok st /\ better (snd st) init = true /\
      (forall n' b s, In n' l1 -> cand n' = Ok (b, s) ->
                      weak s (snd st) = false) /\
      (forall n' b s, In n' l2 -> cand n' = Ok (b, s) ->
                      better s (snd st) = false)).

End ScanDefs.

Arguments scan_step {B} better cand st n.
Arguments scan_inv {B} better weak cand b0 init l st.

(* ------------------------------------------------------------------ *)
(** ** The vocabulary of the properties *)

Section Vocabulary.

Variable E : Engine.

(** Candidate [num_states] trained and scored: [m] is its model and [b]
    its BIC. *)
Definition is_BIC_candidate (self : ModelSelector) (num_states : Z)
    (m : GaussianHMM) (b : float) : Prop :=
  base_model E self (Some num_states) = Ok (Some m) /\
  exists f logL,
    fitted m = Some f /\
    engine_score E m (X self) (lengths self) = Ok logL /\
    b = BIC_score E self num_states (n_features f) logL.

(** Candidate [num_states] trained and scored on the word and on every
    other word: [m] is its model and [d] its DIC. *)
Definition is_DIC_candidate (self : ModelSelector) (num_states : Z)
    (m : GaussianHMM) (d : float) : Prop :=
  base_model E self (Some num_states) = Ok (Some m) /\
  exists logL anti,
    engine_score E m (X self) (lengths self) = Ok logL /\
    anti_logL_vec E self (Some m) = Ok anti /\
    d = (logL - np_mean E anti)%float.

(** hmmlearn cannot fit a model whose [n_components] is [None]. *)
Definition fit_rejects_None : Prop :=
  forall m x ls, n_components m = None -> exists e, engine_fit E m x ls = Raise e.

(** The pair [SelectorCV.select] would keep for candidate [n]. *)
Definition CV_cand (self : ModelSelector) (n : Z) : result (option Z * float) :=
  avg_logL <- CV_try E self n ;; Ok (Some n, avg_logL).

(** The value the inner loop stores for one model. *)
Definition entry_score (x : matrix) (ls : list nat)
    (model : option GaussianHMM) : float :=
  match py_score E model x ls with
  | Ok logL => logL
  | Raise _ => PyFloat.neg_inf
  end.

(** The table entry of one entry of the bank. *)
Definition entry_of (x : matrix) (ls : list nat)
    (entry : string * option GaussianHMM) : string * float :=
  (fst entry, entry_score x ls (snd entry)).

(** The guess [recognize] appends for an item. *)
Definition guess_of (models : dict (option GaussianHMM)) (item : Xlengths)
    : string :=
  match best_guess (score_table E models item) with
  | Ok g => g
  | Raise _ => EmptyString
  end.

End Vocabulary.

(** The model has a state count, within the selector's range. *)
Definition states_in_range (self : ModelSelector) (m : GaussianHMM) : Prop :=
  exists k, n_components m = Some k /\
            (min_n_components self <= k <= max_n_components self)%Z.

(** A fold's two index lists partition the sample indices, and the
    held-out list is not empty. *)
Definition fold_partitions (n_samples : nat) (fold : list nat * list nat)
    : Prop :=
  Permutation (fst fold ++ snd fold) (seq 0 n_samples) /\ snd fold <> [].

(** The guess of a score table: its key, at the place [order] gives it, is
    not beaten by any entry and not matched by any earlier one. *)
Definition is_first_max (order : list string) (table : dict float)
    (g : string) : Prop :=
  exists l1 l2 v,
    order = l1 ++ g :: l2 /\
    dict_getitem table g = Ok v /\
    (forall w v', In w l1 -> dict_getitem table w = Ok v' ->
                  PyFloat.ge v' v = false) /\
    (forall w v', dict_getitem table w = Ok v' ->
                  PyFloat.gt v' v = false /\
                  (PyFloat.is_nan v' = false -> PyFloat.is_nan v = false ->
                   PyFloat.le v' v = true)).

(** Whether the full-data fit of [base_model] at [num_states] succeeds. *)
Definition fit_succeeds (E : Engine) (self : ModelSelector) (num_states : Z)
    : bool :=
  match base_model E self (Some num_states) with
  | Ok (Some _) => true
  | _ => false
  end.

(** The entries of [hwords] that [SelectorDIC.select] scores against: those
    of the words other than [this_word]. *)
Definition other_words (self : ModelSelector) : list (string * Xlengths) :=
  filter (fun '(word, _) => negb (String.eqb word (this_word self)))
         (dict_items (hwords self)).

(* ------------------------------------------------------------------ *)
(** ** Concrete engines, selectors and banks *)

Local Open Scope string_scope.

(** [np.log] on the one argument the examples give it: a matrix of one
    row has N = 1 and log N = 0. *)
Definition np_log_at_one (x : float) : float :=
  if PrimFloat.eqb x 1 then 0%float else nan.

(** The sum of the list divided by its length; NaN on the empty list, as
    [np.mean] is. *)
Definition mean_naive (l : list float) : float :=
  (fold_left PrimFloat.add l 0 / PyFloat.of_int (Z.of_nat (List.length l)))%float.

Definition row_width (x : matrix) : Z :=
  match x with
  | row :: _ => Z.of_nat (List.length row)
  | [] => 0%Z
  end.

Definition first_entry (x : matrix) : float :=
  match x with
  | (v :: _) :: _ => v
  | _ => 0%float
  end.

(** An engine given by two tables over the state count: whether the fit
    succeeds and what scoring a matrix returns.  A model without a state
    count cannot be fitted or scored. *)
Definition table_engine (fit_ok : Z -> bool)
    (score_of : Z -> matrix -> result float) : Engine :=
  mkEngine
    (fun m x _ => match n_components m with
                  | None => Raise TypeError
                  | Some k => if fit_ok k
                              then Ok (mkFitted (row_width x) [] [] [] [])
                              else Raise ValueError
                  end)
    (fun m x _ => match n_components m with
                  | None => Raise TypeError
                  | Some k => score_of k x
                  end)
    np_log_at_one mean_naive.

(** Every fit succeeds; a model of k states scores a matrix at -k times
    its first entry. *)
Definition E_ok : Engine :=
  table_engine (fun _ => true)
               (fun k x => Ok (PyFloat.of_int (- k) * first_entry x)%float).


(** The model of two states scores NaN, the others -3. *)
Definition E_nan : Engine :=
  table_engine (fun _ => true)
               (fun k _ => if (k =? 2)%Z then Ok nan else Ok (-3)%float).

(** The model of two states raises on scoring, the others return -3. *)
Definition E_raise2 : Engine :=
  table_engine (fun _ => true)
               (fun k _ => if (k =? 2)%Z then Raise ValueError else Ok (-3)%float).

(** The model of two states raises on scoring, the others return negative
    infinity. *)
Definition E_raise2_neg_inf : Engine :=
  table_engine (fun _ => true)
               (fun k _ => if (k =? 2)%Z then Raise ValueError
                           else Ok neg_infinity).

Definition X_cat : matrix := [[0.5%float]].
Definition X_dog : matrix := [[2%float]].

(** The fitted model of k states that the table engines return on a
    one-column matrix, with the default seed 14. *)
Definition hmm (k : Z) : GaussianHMM :=
  mkGaussianHMM (Some k) "diag" 1000 14 false (Some (mkFitted 1 [] [] [] [])).

(** A selector for CAT in a vocabulary of one word with one sequence. *)
Definition sel_cat (lo hi : Z) : ModelSelector :=
  mkModelSelector [("CAT", [X_cat])] [("CAT", (X_cat, [1]))]
                  [X_cat] X_cat [1] "CAT" 3 lo hi 14 false.

(** A selector for CAT in the vocabulary CAT, DOG, with two sequences. *)
Definition sel_cat_dog (lo hi : Z) : ModelSelector :=
  mkModelSelector [("CAT", [X_cat; X_cat]); ("DOG", [X_dog])]
                  [("CAT", ((X_cat ++ X_cat)%list, [1; 1])); ("DOG", (X_dog, [1]))]
                  [X_cat; X_cat] (X_cat ++ X_cat)%list [1; 1] "CAT" 3 lo hi 14 false.

Definition bank_cat : dict (option GaussianHMM) := [("CAT", Some (hmm 2))].
Definition bank_cat_dog : dict (option GaussianHMM) :=
  [("CAT", Some (hmm 2)); ("DOG", Some (hmm 3))].

Definition one_item : SinglesData := mkSinglesData [(0%Z, (X_cat, [1]))].
Definition two_items : SinglesData :=
  mkSinglesData [(0%Z, (X_cat, [1])); (1%Z, (X_dog, [1]))].

(** A selector for CAT with the data of [sel_cat], in the vocabulary CAT,
    DOG. *)
Definition sel_cat_in_pair (lo hi : Z) : ModelSelector :=
  mkModelSelector [("CAT", [X_cat]); ("DOG", [X_dog])]
                  [("CAT", (X_cat, [1])); ("DOG", (X_dog, [1]))]
                  [X_cat] X_cat [1] "CAT" 3 lo hi 14 false.

(** Every model raises on scoring. *)
Definition E_raise_all : Engine :=
  table_engine (fun _ => true) (fun _ _ => Raise ValueError).

(** Scoring DOG's matrix raises; the other scores are those of [E_ok]. *)
Definition E_dog_raises : Engine :=
  table_engine (fun _ => true)
               (fun k x => if PrimFloat.eqb (first_entry x) 2
                           then Raise ValueError
                           else Ok (PyFloat.of_int (- k) * first_entry x)%float).

Local Close Scope string_scope.

(* ------------------------------------------------------------------ *)
(** ** Order facts on Python floats *)

Module PyFloatFacts.

Import PyFloat.

Ltac sf_destruct a := destruct a as [[|]|[|]| |[|] ? ?].

Ltac sf_cases :=
  repeat match goal with
  | H : context [Z.compare ?x ?y] |- _ => destruct (Z.compare_spec x y)
  | H : context [Pos.compare ?x ?y] |- _ => destruct (Pos.compare_spec x y)
  | |- context [Z.compare ?x ?y] => destruct (Z.compare_spec x y)
  | |- context [Pos.compare ?x ?y] => destruct (Pos.compare_spec x y)
  end; simpl in *; try discriminate; try reflexivity; try lia.

Ltac sf_solve :=
  simpl; try discriminate; try reflexivity; try congruence;
  change (PosDef.Pos.compare_cont Eq) with Pos.compare; intros; sf_cases.

Lemma SFltb_trans a b c :
  SFltb a b = true -> SFltb b c = true -> SFltb a c = true.
Proof.
  unfold SFltb, SFcompare; sf_destruct a; sf_destruct b; sf_destruct c; sf_solve.
Qed.

Lemma SFleb_ltb_trans a b c :
  SFleb a b = true -> SFltb b c = true -> SFltb a c = true.
Proof.
  unfold SFleb, SFltb, SFcompare;
    sf_destruct a; sf_destruct b; sf_destruct c; sf_solve.
Qed.

Lemma SFltb_leb_trans a b c :
  SFltb a b = true -> SFleb b c = true -> SFltb a c = true.
Proof.
  unfold SFleb, SFltb, SFcompare;
    sf_destruct a; sf_destruct b; sf_destruct c; sf_solve.
Qed.

Lemma SFltb_leb a b : SFltb a b = true -> SFleb a b = true.
Proof. unfold SFleb, SFltb; destruct (SFcompare a b) as [[| |]|]; auto. Qed.

Lemma SFltb_not_leb a b : SFltb a b = true -> SFleb b a = false.
Proof.
  unfold SFleb, SFltb, SFcompare; sf_destruct a; sf_destruct b; sf_solve.
Qed.

Lemma SF_total a b :
  a <> S754_nan -> b <> S754_nan -> SFltb a b = false -> SFleb b a = true.
Proof.
  unfold SFleb, SFltb, SFcompare; sf_destruct a; sf_destruct b; sf_solve.
Qed.

Lemma SFltb_not_nan a b :
  SFltb a b = true -> a <> S754_nan /\ b <> S754_nan.
Proof.
  unfold SFltb, SFcompare; sf_destruct a; sf_destruct b;
    simpl; try discriminate; intros _; split; discriminate.
Qed.

Lemma SFeqb_refl a :
  SFeqb a a = match a with S754_nan => false | _ => true end.
Proof.
  unfold SFeqb, SFcompare; sf_destruct a; simpl; try reflexivity;
    change (PosDef.Pos.compare_cont Eq) with Pos.compare;
    rewrite Z.compare_refl, Pos.compare_refl; reflexivity.
Qed.

Lemma is_nan_false (x : float) :
  is_nan x = false <-> Prim2SF x <> S754_nan.
Proof.
  unfold is_nan, PrimFloat.is_nan. rewrite eqb_spec, SFeqb_refl.
  destruct (Prim2SF x); simpl; split; intros; congruence.
Qed.

(** ** The facts the selection loops rest on *)

Lemma lt_trans x y z : lt x y = true -> lt y z = true -> lt x z = true.
Proof. unfold lt; rewrite !ltb_spec; apply SFltb_trans. Qed.

Lemma le_lt_trans x y z : le x y = true -> lt y z = true -> lt x z = true.
Proof. unfold le, lt; rewrite !ltb_spec, leb_spec; apply SFleb_ltb_trans. Qed.

Lemma lt_le_trans x y z : lt x y = true -> le y z = true -> lt x z = true.
Proof. unfold le, lt; rewrite !ltb_spec, leb_spec; apply SFltb_leb_trans. Qed.

Lemma lt_le x y : lt x y = true -> le x y = true.
Proof. unfold le, lt; rewrite ltb_spec, leb_spec; apply SFltb_leb. Qed.

Lemma lt_not_le x y : lt x y = true -> le y x = false.
Proof. unfold le, lt; rewrite ltb_spec, leb_spec; apply SFltb_not_leb. Qed.

Lemma not_lt_le x y :
  is_nan x = false -> is_nan y = false -> lt x y = false -> le y x = true.
Proof.
  rewrite !is_nan_false; unfold le, lt; rewrite ltb_spec, leb_spec.
  apply SF_total.
Qed.

Lemma lt_not_nan x y :
  lt x y = true -> is_nan x = false /\ is_nan y = false.
Proof.
  rewrite !is_nan_false; unfold lt; rewrite ltb_spec. apply SFltb_not_nan.
Qed.

Lemma gt_lt x y : gt x y = lt y x.
Proof. reflexivity. Qed.

Lemma ge_le x y : ge x y = le y x.
Proof. reflexivity. Qed.

Lemma nothing_below_neg_inf x : lt x neg_inf = false.
Proof.
  unfold lt, neg_inf; rewrite ltb_spec.
  replace (Prim2SF neg_infinity) with (S754_infinity true) by reflexivity.
  unfold SFltb, SFcompare. sf_destruct (Prim2SF x); reflexivity.
Qed.

Lemma nothing_above_inf x : lt inf x = false.
Proof.
  unfold lt, inf; rewrite ltb_spec.
  replace (Prim2SF infinity) with (S754_infinity false) by reflexivity.
  unfold SFltb, SFcompare. sf_destruct (Prim2SF x); reflexivity.
Qed.

End PyFloatFacts.

(* ------------------------------------------------------------------ *)
(** ** Ranges *)

Lemma py_range_In (start stop n : Z) :
  In n (py_range start stop) <-> (start <= n < stop)%Z.
Proof.
  unfold py_range. rewrite in_map_iff. split.
  - intros [i [<- Hi]]. apply in_seq in Hi. lia.
  - intros H. exists (Z.to_nat (n - start)). split; [lia|].
    apply in_seq. lia.
Qed.

Lemma py_range_sorted (start stop : Z) :
  StronglySorted Z.lt (py_range start stop).
Proof.
  unfold py_range. generalize (Z.to_nat (stop - start)) as k.
  generalize 0%nat as s. intros s k; revert s.
  induction k as [|k IH]; intros s; simpl; constructor.
  - apply IH.
  - apply Forall_forall. intros x Hx. apply in_map_iff in Hx.
    destruct Hx as [i [<- Hi]]. apply in_seq in Hi. lia.
Qed.

Lemma sorted_split (l1 l2 : list Z) (n : Z) :
  StronglySorted Z.lt (l1 ++ n :: l2) ->
  (forall x, In x l1 -> (x < n)%Z) /\ (forall x, In x l2 -> (n < x)%Z).
Proof.
  induction l1 as [|a l1 IH]; simpl; intros H; inversion H; subst.
  - split; [tauto|]. intros x Hx.
    match goal with F : Forall _ l2 |- _ => rewrite Forall_forall in F; auto end.
  - destruct IH as [IH1 IH2]; [assumption|]. split; [|assumption].
    intros x [<-|Hx]; [|auto].
    match goal with F : Forall _ (_ ++ _) |- _ =>
      rewrite Forall_forall in F; apply F end.
    apply in_or_app; right; left; reflexivity.
Qed.

(* ------------------------------------------------------------------ *)
(** ** The invariant of the search loop *)

Section ScanLoop.

Variable B : Type.
Variables better weak : float -> float -> bool.

Hypothesis better_weak : forall a b, better a b = true -> weak a b = true.
Hypothesis weak_better_trans :
  forall x s b, weak x s = true -> better s b = true -> better x b = true.
Hypothesis better_not_weak :
  forall s b, better s b = true -> weak b s = false.

Variable cand : Z -> result (B * float).

Local Abbreviation step := (scan_step better cand).
Local Abbreviation inv := (scan_inv better weak cand).

Lemma not_better_not_weak x s b :
  better s b = true -> better x b = false -> weak x s = false.
Proof.
  intros Hs Hx. destruct (weak x s) eqn:Hw; [|reflexivity].
  rewrite (weak_better_trans _ _ _ Hw Hs) in Hx. discriminate.
Qed.

Lemma not_weak_step x s b :
  better s b = true -> weak x b = false -> weak x s = false.
Proof.
  intros Hs Hx. destruct (weak x s) eqn:Hw; [|reflexivity].
  rewrite (better_weak _ _ (weak_better_trans _ _ _ Hw Hs)) in Hx. discriminate.
Qed.

Lemma scan_fold_inv (b0 : B) (init : float) (l : list Z) :
  inv b0 init l (fold_left step l (b0, init)).
Proof.
  induction l as [|n l IH] using rev_ind.
  - left. split; [reflexivity|]. intros ? ? ? [].
  - rewrite fold_left_app. simpl.
    remember (fold_left step l (b0, init)) as st eqn:Hfold. clear Hfold.
    unfold scan_step at 1.
    destruct (cand n) as [[b s]|e] eqn:Hc.
    + destruct (better s (snd st)) eqn:Hb.
      * right. exists l, n, []. split; [reflexivity|]. simpl.
        destruct IH as [[Hst Hall]|(l1 & m & l2 & Hl & Hm & Hbi & H1 & H2)].
        -- rewrite Hst in Hb; simpl in Hb.
           refine (conj Hc (conj Hb (conj _ _))); [|intros ? ? ? []].
           intros n' b' s' Hin Hc'.
           eapply not_better_not_weak; [exact Hb|]. eapply Hall; eauto.
        -- refine (conj Hc (conj _ (conj _ _))); [| |intros ? ? ? []].
           ++ eapply weak_better_trans; [apply better_weak; exact Hb|exact Hbi].
           ++ intros n' b' s' Hin Hc'. subst l.
              apply in_app_or in Hin. destruct Hin as [Hin|[<-|Hin]].
              ** eapply not_weak_step; [exact Hb|]. eapply H1; eauto.
              ** rewrite Hm in Hc'. inversion Hc'; subst st. simpl in *.
                 apply better_not_weak; assumption.
              ** eapply not_better_not_weak; [exact Hb|]. eapply H2; eauto.
      * destruct IH as [[Hst Hall]|(l1 & m & l2 & Hl & Hm & Hbi & H1 & H2)].
        -- left. split; [assumption|]. intros n' b' s' Hin Hc'.
           apply in_app_or in Hin. destruct Hin as [Hin|[<-|[]]].
           ++ eapply Hall; eauto.
           ++ rewrite Hc in Hc'. inversion Hc'; subst.
              simpl in Hb. exact Hb.
        -- right. exists l1, m, (l2 ++ [n]). subst l.
           rewrite <- app_assoc. simpl.
           refine (conj eq_refl (conj Hm (conj Hbi (conj H1 _)))).
           intros n' b' s' Hin Hc'.
           apply in_app_or in Hin. destruct Hin as [Hin|[<-|[]]].
           ++ eapply H2; eauto.
           ++ rewrite Hc in Hc'. inversion Hc'; subst. exact Hb.
    + destruct IH as [[Hst Hall]|(l1 & m & l2 & Hl & Hm & Hbi & H1 & H2)].
      * left. split; [assumption|]. intros n' b' s' Hin Hc'.
        apply in_app_or in Hin. destruct Hin as [Hin|[<-|[]]].
        -- eapply Hall; eauto.
        -- rewrite Hc in Hc'. discriminate.
      * right. exists l1, m, (l2 ++ [n]). subst l.
        rewrite <- app_assoc. simpl.
        refine (conj eq_refl (conj Hm (conj Hbi (conj H1 _)))).
        intros n' b' s' Hin Hc'.
        apply in_app_or in Hin. destruct Hin as [Hin|[<-|[]]].
        -- eapply H2; eauto.
        -- rewrite Hc in Hc'. discriminate.
Qed.

Lemma better_irrefl s : better s s = false.
Proof.
  destruct (better s s) eqn:H; [|reflexivity].
  pose proof (better_weak _ _ H). pose proof (better_not_weak _ _ H).
  congruence.
Qed.

Lemma not_weak_not_better x s : weak x s = false -> better x s = false.
Proof.
  intros H. destruct (better x s) eqn:Hb; [|reflexivity].
  rewrite (better_weak _ _ Hb) in H. discriminate.
Qed.

(** The scan over a range: either nothing beat [init], or the state is
    the first best candidate. *)
Lemma scan_range (b0 : B) (init : float) (lo hi : Z) (st : B * float) :
  fold_left step (py_range lo (hi + 1)%Z) (b0, init) = st ->
  (st = (b0, init) /\
   forall n b s, (lo <= n <= hi)%Z -> cand n = Ok (b, s) ->
                 better s init = false)
  \/
  (exists n,
      (lo <= n <= hi)%Z /\ cand n = Ok st /\ better (snd st) init = true /\
      forall n' b s, (lo <= n' <= hi)%Z -> cand n' = Ok (b, s) ->
                     better s (snd st) = false /\
                     ((n' < n)%Z -> weak s (snd st) = false)).
Proof.
  intros <-.
  destruct (scan_fold_inv b0 init (py_range lo (hi + 1)%Z))
    as [[Hst Hall]|(l1 & n & l2 & Hl & Hn & Hbi & H1 & H2)].
  - left. split; [assumption|]. intros n b s Hr Hc.
    eapply Hall; [|exact Hc]. apply py_range_In. lia.
  - right. exists n.
    pose proof (py_range_sorted lo (hi + 1)) as Hs. rewrite Hl in Hs.
    apply sorted_split in Hs. destruct Hs as [Hs1 Hs2].
    assert (Hin : In n (py_range lo (hi + 1)%Z))
      by (rewrite Hl; apply in_or_app; right; left; reflexivity).
    apply py_range_In in Hin.
    split; [lia|]. split; [assumption|]. split; [assumption|].
    intros n' b s Hr Hc.
    assert (Hin' : In n' (py_range lo (hi + 1)%Z)) by (apply py_range_In; lia).
    rewrite Hl in Hin'. apply in_app_or in Hin'.
    destruct Hin' as [Hi|[Heq|Hi]].
    + pose proof (H1 _ _ _ Hi Hc) as Hw. split; [|intros _; exact Hw].
      apply not_weak_not_better; exact Hw.
    + subst n'. rewrite Hn in Hc. inversion Hc as [Hst].
      rewrite Hst. simpl. split; [apply better_irrefl|lia].
    + split; [eapply H2; eauto|]. intros Hlt.
      pose proof (Hs2 _ Hi). lia.
Qed.

End ScanLoop.


Lemma fold_left_ext_eq {S A : Type} (f g : S -> A -> S) (l : list A) (s : S) :
  (forall st a, f st a = g st a) -> fold_left f l s = fold_left g l s.
Proof.
  intros H. revert s. induction l as [|a l IH]; intros s; simpl;
    [reflexivity|]. rewrite H. apply IH.
Qed.

(** The two instances of the scan: BIC minimises, DIC and CV maximise. *)
Lemma scan_min_range (B : Type) (cand : Z -> result (B * float)) b0 init
    lo hi st :
  fold_left (scan_step PyFloat.lt cand) (py_range lo (hi + 1)%Z) (b0, init) = st ->
  (st = (b0, init) /\
   forall n b s, (lo <= n <= hi)%Z -> cand n = Ok (b, s) ->
                 PyFloat.lt s init = false)
  \/
  (exists n,
      (lo <= n <= hi)%Z /\ cand n = Ok st /\ PyFloat.lt (snd st) init = true /\
      forall n' b s, (lo <= n' <= hi)%Z -> cand n' = Ok (b, s) ->
                     PyFloat.lt s (snd st) = false /\
                     ((n' < n)%Z -> PyFloat.le s (snd st) = false)).
Proof.
  apply scan_range.
  - apply PyFloatFacts.lt_le.
  - apply PyFloatFacts.le_lt_trans.
  - apply PyFloatFacts.lt_not_le.
Qed.

Lemma scan_max_range (B : Type) (cand : Z -> result (B * float)) b0 init
    lo hi st :
  fold_left (scan_step PyFloat.gt cand) (py_range lo (hi + 1)%Z) (b0, init) = st ->
  (st = (b0, init) /\
   forall n b s, (lo <= n <= hi)%Z -> cand n = Ok (b, s) ->
                 PyFloat.gt s init = false)
  \/
  (exists n,
      (lo <= n <= hi)%Z /\ cand n = Ok st /\ PyFloat.gt (snd st) init = true /\
      forall n' b s, (lo <= n' <= hi)%Z -> cand n' = Ok (b, s) ->
                     PyFloat.gt s (snd st) = false /\
                     ((n' < n)%Z -> PyFloat.ge s (snd st) = false)).
Proof.
  apply scan_range.
  - intros a b. apply PyFloatFacts.lt_le.
  - intros x s b H1 H2. exact (PyFloatFacts.lt_le_trans _ _ _ H2 H1).
  - intros s b. apply PyFloatFacts.lt_not_le.
Qed.

(* ------------------------------------------------------------------ *)
(** ** The model trainer *)

Section Trainer.

Variable E : Engine.

Lemma base_model_cases (self : ModelSelector) (num_states : option Z) :
  (exists f,
      engine_fit E (GaussianHMM_new num_states (random_state self))
                 (X self) (lengths self) = Ok f /\
      base_model E self num_states =
        Ok (Some (mkGaussianHMM num_states "diag" 1000 (random_state self)
                    false (Some f))))
  \/
  (exists e,
      engine_fit E (GaussianHMM_new num_states (random_state self))
                 (X self) (lengths self) = Raise e /\
      base_model E self num_states = Ok None).
Proof.
  unfold base_model, GaussianHMM_fit.
  destruct (engine_fit E _ (X self) (lengths self)) as [f|e] eqn:Hf; simpl.
  - left. exists f. split; reflexivity.
  - right. exists e. split; reflexivity.
Qed.

Lemma base_model_Some (self : ModelSelector) (num_states : option Z)
    (m : GaussianHMM) :
  base_model E self num_states = Ok (Some m) ->
  exists f,
    engine_fit E (GaussianHMM_new num_states (random_state self))
               (X self) (lengths self) = Ok f /\
    m = mkGaussianHMM num_states "diag" 1000 (random_state self) false (Some f).
Proof.
  intros H.
  destruct (base_model_cases self num_states) as [(f & Hf & Hb)|(e & _ & Hb)];
    rewrite Hb in H; inversion H; subst. exists f. split; auto.
Qed.


(** C8.  [base_model] never raises.  It returns either a model built with
    diagonal covariance, 1000 iterations and the selector's seed, at the
    requested state count and fitted on the word's (X, lengths), or [None];
    and it returns [None] exactly when the engine's fit raised. *)
Theorem base_model_model_or_failure (self : ModelSelector)
    (num_states : option Z) :
  (exists m f,
      base_model E self num_states = Ok (Some m) /\
      covariance_type m = "diag"%string /\
      n_iter m = 1000%Z /\
      hmm_random_state m = random_state self /\
      n_components m = num_states /\
      fitted m = Some f /\
      engine_fit E (GaussianHMM_new num_states (random_state self))
                 (X self) (lengths self) = Ok f)
  \/
  (base_model E self num_states = Ok None /\
   exists e,
     engine_fit E (GaussianHMM_new num_states (random_state self))
                (X self) (lengths self) = Raise e).
Proof.
  destruct (base_model_cases self num_states) as [(f & Hf & Hb)|(e & Hf & Hb)].
  - left. eexists; exists f. rewrite Hb. simpl. repeat split; auto.
  - right. split; [exact Hb|]. exists e; exact Hf.
Qed.

End Trainer.

(* ------------------------------------------------------------------ *)
(** ** SelectorBIC *)

Section BIC.

Variable E : Engine.

Lemma BIC_try_Ok (self : ModelSelector) (n : Z) (hm : option GaussianHMM)
    (b : float) :
  BIC_try E self n = Ok (hm, b) <->
  exists m, hm = Some m /\ is_BIC_candidate E self n m b.
Proof.
  unfold BIC_try, is_BIC_candidate.
  destruct (base_model_cases E self (Some n)) as [(f & _ & Hb)|(e & _ & Hb)];
    rewrite Hb; simpl.
  - destruct (engine_score E _ (X self) (lengths self)) as [logL|e] eqn:Hs;
      simpl.
    + split.
      * intros H; inversion H; subst. eexists; split; [reflexivity|].
        split; [reflexivity|]. exists f, logL. simpl. rewrite Hs. auto.
      * intros (m & -> & Hm & f' & logL' & Hf & Hs' & ->).
        inversion Hm; subst m. simpl in *. inversion Hf; subst f'.
        rewrite Hs in Hs'. inversion Hs'; subst. reflexivity.
    + split; [discriminate|].
      intros (m & -> & Hm & f' & logL' & Hf & Hs' & ->).
      inversion Hm; subst m. rewrite Hs in Hs'. discriminate.
  - split; [discriminate|]. intros (m & _ & Hm & _). discriminate.
Qed.

Lemma BIC_step_scan (self : ModelSelector) st n :
  BIC_step E self st n = scan_step PyFloat.lt (BIC_try E self) st n.
Proof.
  unfold BIC_step, scan_step. destruct st as [bm bs].
  destruct (BIC_try E self n) as [[hm s]|e]; reflexivity.
Qed.

Lemma SelectorBIC_scan (self : ModelSelector) :
  (SelectorBIC_select E self = Ok None /\
   forall n m b,
     (min_n_components self <= n <= max_n_components self)%Z ->
     is_BIC_candidate E self n m b -> PyFloat.lt b PyFloat.inf = false)
  \/
  (exists n m b,
      SelectorBIC_select E self = Ok (Some m) /\
      (min_n_components self <= n <= max_n_components self)%Z /\
      is_BIC_candidate E self n m b /\
      PyFloat.lt b PyFloat.inf = true /\
      forall n' m' b',
        (min_n_components self <= n' <= max_n_components self)%Z ->
        is_BIC_candidate E self n' m' b' ->
        PyFloat.lt b' b = false /\ ((n' < n)%Z -> PyFloat.le b' b = false)).
Proof.
  unfold SelectorBIC_select.
  rewrite (fold_left_ext_eq _ _ _ _ (BIC_step_scan self)).
  destruct (fold_left _ _ _) as [bm bs] eqn:Hfold.
  apply scan_min_range in Hfold.
  destruct Hfold as [[Hst Hall]|(n & Hr & Hn & Hbi & Hall)].
  - left. inversion Hst; subst. split; [reflexivity|].
    intros n m b Hr Hc. eapply Hall; [exact Hr|].
    apply BIC_try_Ok. eauto.
  - right. simpl in *. apply BIC_try_Ok in Hn.
    destruct Hn as (m & -> & Hc). exists n, m, bs.
    repeat split; try lia; try assumption; try apply Hc.
    + eapply Hall; [eassumption|]. apply BIC_try_Ok. eauto.
    + eapply Hall; [eassumption|]. apply BIC_try_Ok. eauto.
Qed.

(** C1, as the code has it.  When [SelectorBIC.select] returns a model,
    it is the model of a candidate state count in range whose BIC
    (-2 logL + p log N, with p = n^2 + 2 n numFeatures - 1 and N the
    number of rows of X) is a number, and no candidate that trained and
    scored has a strictly smaller BIC; the returned BIC is less than or
    equal to that of every such candidate whose BIC is not NaN. *)
Theorem SelectorBIC_select_minimal (self : ModelSelector) (m : GaussianHMM) :
  SelectorBIC_select E self = Ok (Some m) ->
  exists n b,
    (min_n_components self <= n <= max_n_components self)%Z /\
    is_BIC_candidate E self n m b /\
    PyFloat.is_nan b = false /\
    forall n' m' b',
      (min_n_components self <= n' <= max_n_components self)%Z ->
      is_BIC_candidate E self n' m' b' ->
      PyFloat.lt b' b = false /\
      (PyFloat.is_nan b' = false -> PyFloat.le b b' = true).
Proof.
  intros H.
  destruct (SelectorBIC_scan self)
    as [[Hsel _]|(n & m0 & b & Hsel & Hr & Hc & Hbi & Hall)];
    rewrite Hsel in H; [discriminate|]. inversion H; subst m0.
  destruct (PyFloatFacts.lt_not_nan _ _ Hbi) as [Hnan _].
  exists n, b. split; [exact Hr|]. split; [exact Hc|]. split; [exact Hnan|].
  intros n' m' b' Hr' Hc'.
  assert (Hlt : PyFloat.lt b' b = false) by (eapply Hall; eassumption).
  split; [exact Hlt|]. intros Hnan'.
  apply PyFloatFacts.not_lt_le; assumption.
Qed.

End BIC.

(* ------------------------------------------------------------------ *)
(** ** SelectorDIC *)

Section DIC.

Variable E : Engine.

Lemma DIC_try_Ok (self : ModelSelector) (n : Z) (hm : option GaussianHMM)
    (d : float) :
  DIC_try E self n = Ok (hm, d) <->
  exists m, hm = Some m /\ is_DIC_candidate E self n m d.
Proof.
  unfold DIC_try, is_DIC_candidate.
  destruct (base_model_cases E self (Some n)) as [(f & _ & Hb)|(e & _ & Hb)];
    rewrite Hb; simpl.
  - destruct (engine_score E _ (X self) (lengths self)) as [logL|e] eqn:Hs;
      simpl.
    + destruct (anti_logL_vec E self _) as [anti|e] eqn:Ha; simpl.
      * split.
        -- intros H; inversion H; subst. eexists; split; [reflexivity|].
           split; [reflexivity|]. exists logL, anti. rewrite Hs, Ha. auto.
        -- intros (m & -> & Hm & logL' & anti' & Hs' & Ha' & ->).
           inversion Hm; subst m. rewrite Hs in Hs'. rewrite Ha in Ha'.
           inversion Hs'; inversion Ha'; subst. reflexivity.
      * split; [discriminate|].
        intros (m & -> & Hm & logL' & anti' & Hs' & Ha' & ->).
        inversion Hm; subst m. rewrite Ha in Ha'. discriminate.
    + split; [discriminate|].
      intros (m & -> & Hm & logL' & anti' & Hs' & Ha' & ->).
      inversion Hm; subst m. rewrite Hs in Hs'. discriminate.
  - split; [discriminate|]. intros (m & _ & Hm & _). discriminate.
Qed.

Lemma DIC_step_scan (self : ModelSelector) st n :
  DIC_step E self st n = scan_step PyFloat.gt (DIC_try E self) st n.
Proof.
  unfold DIC_step, scan_step. destruct st as [bm bs].
  destruct (DIC_try E self n) as [[hm s]|e]; reflexivity.
Qed.

Lemma SelectorDIC_scan (self : ModelSelector) :
  (SelectorDIC_select E self = Ok None /\
   forall n m d,
     (min_n_components self <= n <= max_n_components self)%Z ->
     is_DIC_candidate E self n m d -> PyFloat.gt d PyFloat.neg_inf = false)
  \/
  (exists n m d,
      SelectorDIC_select E self = Ok (Some m) /\
      (min_n_components self <= n <= max_n_components self)%Z /\
      is_DIC_candidate E self n m d /\
      PyFloat.gt d PyFloat.neg_inf = true /\
      forall n' m' d',
        (min_n_components self <= n' <= max_n_components self)%Z ->
        is_DIC_candidate E self n' m' d' ->
        PyFloat.gt d' d = false /\ ((n' < n)%Z -> PyFloat.ge d' d = false)).
Proof.
  unfold SelectorDIC_select.
  rewrite (fold_left_ext_eq _ _ _ _ (DIC_step_scan self)).
  destruct (fold_left _ _ _) as [bm bs] eqn:Hfold.
  apply scan_max_range in Hfold.
  destruct Hfold as [[Hst Hall]|(n & Hr & Hn & Hbi & Hall)].
  - left. inversion Hst; subst. split; [reflexivity|].
    intros n m d Hr Hc. eapply Hall; [exact Hr|].
    apply DIC_try_Ok. eauto.
  - right. simpl in *. apply DIC_try_Ok in Hn.
    destruct Hn as (m & -> & Hc). exists n, m, bs.
    repeat split; try lia; try assumption; try apply Hc.
    + eapply Hall; [eassumption|]. apply DIC_try_Ok. eauto.
    + eapply Hall; [eassumption|]. apply DIC_try_Ok. eauto.
Qed.

(** C4, as the code has it.  When [SelectorDIC.select] returns a model, it
    is the model of the first candidate state count whose DIC
    (logL - mean(antiLogL)) is the greatest: no candidate has a strictly
    greater DIC, no candidate with fewer states has a DIC greater than or
    equal to it, and it is greater than or equal to every DIC that is not
    NaN.  It returns no model exactly when no candidate's DIC is strictly
    above negative infinity. *)
Theorem SelectorDIC_select_maximal (self : ModelSelector) :
  (forall m,
      SelectorDIC_select E self = Ok (Some m) ->
      exists n d,
        (min_n_components self <= n <= max_n_components self)%Z /\
        is_DIC_candidate E self n m d /\
        PyFloat.gt d PyFloat.neg_inf = true /\
        forall n' m' d',
          (min_n_components self <= n' <= max_n_components self)%Z ->
          is_DIC_candidate E self n' m' d' ->
          PyFloat.gt d' d = false /\
          ((n' < n)%Z -> PyFloat.ge d' d = false) /\
          (PyFloat.is_nan d' = false -> PyFloat.le d' d = true))
  /\
  (SelectorDIC_select E self = Ok None <->
   forall n m d,
     (min_n_components self <= n <= max_n_components self)%Z ->
     is_DIC_candidate E self n m d -> PyFloat.gt d PyFloat.neg_inf = false).
Proof.
  destruct (SelectorDIC_scan self)
    as [[Hsel Hall]|(n & m0 & d & Hsel & Hr & Hc & Hbi & Hall)].
  - split.
    + intros m H. rewrite Hsel in H. discriminate.
    + split; auto.
  - split.
    + intros m H. rewrite Hsel in H. inversion H; subst m0.
      exists n, d. repeat split; try lia; try assumption; try apply Hc.
      * eapply Hall; eassumption.
      * eapply Hall; eassumption.
      * intros Hnan. destruct (PyFloatFacts.lt_not_nan _ _ Hbi) as [_ Hd].
        apply PyFloatFacts.not_lt_le; try assumption.
        eapply Hall; eassumption.
    + split.
      * intros H. rewrite Hsel in H. discriminate.
      * intros H. rewrite (H _ _ _ Hr Hc) in Hbi. discriminate.
Qed.

End DIC.

(* ------------------------------------------------------------------ *)
(** ** SelectorCV *)

Section CV.

Variable E : Engine.

Lemma CV_step_scan (self : ModelSelector) st n :
  CV_step E self st n = scan_step PyFloat.gt (CV_cand E self) st n.
Proof.
  unfold CV_step, scan_step, CV_cand. destruct st as [bn bs].
  destruct (CV_try E self n) as [avg|e]; reflexivity.
Qed.

Lemma CV_cand_Ok (self : ModelSelector) n b avg :
  CV_cand E self n = Ok (b, avg) <-> b = Some n /\ CV_try E self n = Ok avg.
Proof.
  unfold CV_cand. destruct (CV_try E self n) as [a|e]; simpl; split.
  - intros H; inversion H; auto.
  - intros [-> H]; inversion H; reflexivity.
  - discriminate.
  - intros [_ H]; discriminate.
Qed.

Lemma CV_best_scan (self : ModelSelector) :
  (CV_best_num_components E self = None /\
   forall n avg,
     (min_n_components self <= n <= max_n_components self)%Z ->
     CV_try E self n = Ok avg -> PyFloat.gt avg PyFloat.neg_inf = false)
  \/
  (exists n avg,
      CV_best_num_components E self = Some n /\
      (min_n_components self <= n <= max_n_components self)%Z /\
      CV_try E self n = Ok avg /\
      PyFloat.gt avg PyFloat.neg_inf = true /\
      forall n' avg',
        (min_n_components self <= n' <= max_n_components self)%Z ->
        CV_try E self n' = Ok avg' ->
        PyFloat.gt avg' avg = false /\
        ((n' < n)%Z -> PyFloat.ge avg' avg = false)).
Proof.
  unfold CV_best_num_components.
  rewrite (fold_left_ext_eq _ _ _ _ (CV_step_scan self)).
  destruct (fold_left _ _ _) as [bn bs] eqn:Hfold.
  apply scan_max_range in Hfold.
  destruct Hfold as [[Hst Hall]|(n & Hr & Hn & Hbi & Hall)].
  - left. inversion Hst; subst. split; [reflexivity|].
    intros n avg Hr Hc. eapply Hall; [exact Hr|].
    apply CV_cand_Ok. eauto.
  - right. simpl in *. apply CV_cand_Ok in Hn.
    destruct Hn as (-> & Hc). exists n, bs.
    repeat split; try lia; try assumption.
    + eapply Hall; [eassumption|]. apply CV_cand_Ok. eauto.
    + eapply Hall; [eassumption|]. apply CV_cand_Ok. eauto.
Qed.


Lemma kfold_from_length n c sizes :
  List.length (kfold_from n c sizes) = List.length sizes.
Proof.
  revert c. induction sizes as [|sz t IH]; intros c; simpl;
    [reflexivity|]. rewrite IH. reflexivity.
Qed.

Lemma fold_sizes_sum_gen (q r j : nat) :
  list_sum (map (fun i => q + (if i <? r then 1 else 0)) (seq 0 j)) =
  j * q + Nat.min r j.
Proof.
  induction j as [|j IH]; [simpl; lia|].
  rewrite seq_S, map_app, list_sum_app, IH. simpl.
  destruct (Nat.ltb_spec j r); lia.
Qed.

Lemma fold_sizes_sum (k n : nat) : 0 < k -> list_sum (fold_sizes k n) = n.
Proof.
  intros Hk. unfold fold_sizes. rewrite fold_sizes_sum_gen.
  pose proof (Nat.mod_upper_bound n k ltac:(lia)).
  pose proof (Nat.div_mod_eq n k). lia.
Qed.

Lemma fold_sizes_positive (k n : nat) :
  0 < k -> k <= n -> Forall (fun sz => 0 < sz) (fold_sizes k n).
Proof.
  intros Hk Hn. unfold fold_sizes. apply Forall_forall. intros sz Hin.
  apply in_map_iff in Hin. destruct Hin as (i & <- & _).
  assert (0 < n / k) by (apply Nat.div_str_pos; lia). lia.
Qed.

Lemma kfold_from_partitions (n c : nat) (sizes : list nat) :
  c + list_sum sizes = n -> Forall (fun sz => 0 < sz) sizes ->
  Forall (fold_partitions n) (kfold_from n c sizes).
Proof.
  revert c. induction sizes as [|sz t IH]; intros c Hsum Hpos;
    cbn [kfold_from]; constructor.
  - apply Forall_inv in Hpos. cbv beta in Hpos. simpl in Hsum.
    split; cbn [fst snd].
    + replace (seq 0 n)
        with (seq 0 c ++ seq c sz ++ seq (c + sz) (n - (c + sz))).
      * rewrite <- app_assoc. apply Permutation_app_head.
        apply Permutation_app_comm.
      * rewrite <- !seq_app. f_equal. lia.
    + destruct sz; [lia|]. simpl. discriminate.
  - apply Forall_inv_tail in Hpos. simpl in Hsum.
    apply IH; [lia|assumption].
Qed.

Lemma KFold_split_Ok (k n : nat) :
  2 <= k -> k <= n ->
  exists folds,
    KFold_split k n = Ok folds /\ List.length folds = k /\
    Forall (fold_partitions n) folds.
Proof.
  intros Hk Hn. unfold KFold_split.
  destruct (Nat.ltb_spec k 2); [lia|].
  destruct (Nat.ltb_spec n k); [lia|].
  eexists; split; [reflexivity|]. split.
  - rewrite kfold_from_length. unfold fold_sizes.
    rewrite length_map, length_seq. reflexivity.
  - apply kfold_from_partitions.
    + simpl. apply fold_sizes_sum. lia.
    + apply fold_sizes_positive; lia.
Qed.


(** C6, as the code has it.  A model returned by [SelectorCV.select] is
    the engine's fit on the word's whole (X, lengths) at the first state
    count whose mean fold score is the greatest (no candidate has a
    strictly greater mean, none with fewer states has one greater than or
    equal, and it is greater than or equal to every mean that is not NaN);
    and when every candidate state count fails, no model is returned. *)
Theorem SelectorCV_select_full_data (self : ModelSelector) :
  fit_rejects_None E ->
  (forall m,
      SelectorCV_select E self = Ok (Some m) ->
      exists n avg f,
        (min_n_components self <= n <= max_n_components self)%Z /\
        CV_try E self n = Ok avg /\
        PyFloat.gt avg PyFloat.neg_inf = true /\
        engine_fit E (GaussianHMM_new (Some n) (random_state self))
                   (X self) (lengths self) = Ok f /\
        m = mkGaussianHMM (Some n) "diag" 1000 (random_state self) false
              (Some f) /\
        forall n' avg',
          (min_n_components self <= n' <= max_n_components self)%Z ->
          CV_try E self n' = Ok avg' ->
          PyFloat.gt avg' avg = false /\
          ((n' < n)%Z -> PyFloat.ge avg' avg = false) /\
          (PyFloat.is_nan avg' = false -> PyFloat.le avg' avg = true))
  /\
  ((forall n,
       (min_n_components self <= n <= max_n_components self)%Z ->
       exists e, CV_try E self n = Raise e) ->
   SelectorCV_select E self = Ok None).
Proof.
  intros Hnone. unfold SelectorCV_select.
  destruct (CV_best_scan self)
    as [[Hbest Hall]|(n & avg & Hbest & Hr & Hc & Hbi & Hall)];
    rewrite Hbest.
  - assert (HN : base_model E self None = Ok None).
    { destruct (base_model_cases E self None)
        as [(f & Hf & _)|(e & _ & Hb)]; [|exact Hb].
      destruct (Hnone (GaussianHMM_new None (random_state self))
                      (X self) (lengths self) eq_refl) as [e He].
      rewrite He in Hf. discriminate. }
    split; [|intros _; exact HN].
    intros m H. rewrite HN in H. discriminate.
  - split.
    + intros m H. apply base_model_Some in H. destruct H as (f & Hf & ->).
      exists n, avg, f. repeat split; try lia; try assumption.
      * eapply Hall; eassumption.
      * eapply Hall; eassumption.
      * intros Hnan. destruct (PyFloatFacts.lt_not_nan _ _ Hbi) as [_ Hd].
        apply PyFloatFacts.not_lt_le; try assumption.
        eapply Hall; eassumption.
    + intros Hfail. destruct (Hfail n Hr) as [e He].
      rewrite He in Hc. discriminate.
Qed.

End CV.

(* ------------------------------------------------------------------ *)
(** ** The state count of a selected model *)

Section StateCount.

Variable E : Engine.

(** C3, as the code has it.  A model returned by the BIC, DIC or CV
    selector has its state count within [min_n_components,
    max_n_components]; a model returned by the constant selector has
    [n_constant] states, whatever the range. *)
Theorem selected_state_count (self : ModelSelector) (m : GaussianHMM) :
  (SelectorBIC_select E self = Ok (Some m) \/
   SelectorDIC_select E self = Ok (Some m) -> states_in_range self m) /\
  (fit_rejects_None E -> SelectorCV_select E self = Ok (Some m) ->
   states_in_range self m) /\
  (SelectorConstant_select E self = Ok (Some m) ->
   n_components m = Some (n_constant self)).
Proof.
  split; [|split].
  - intros [H|H].
    + destruct (SelectorBIC_scan E self)
        as [[Hsel _]|(n & m0 & b & Hsel & Hr & Hc & _)];
        rewrite Hsel in H; [discriminate|]. inversion H; subst m0.
      destruct Hc as [Hb _]. apply base_model_Some in Hb.
      destruct Hb as (f & _ & ->). exists n. split; [reflexivity|exact Hr].
    + destruct (SelectorDIC_scan E self)
        as [[Hsel _]|(n & m0 & b & Hsel & Hr & Hc & _)];
        rewrite Hsel in H; [discriminate|]. inversion H; subst m0.
      destruct Hc as [Hb _]. apply base_model_Some in Hb.
      destruct Hb as (f & _ & ->). exists n. split; [reflexivity|exact Hr].
  - intros Hnone H. unfold SelectorCV_select in H.
    apply base_model_Some in H. destruct H as (f & Hf & ->).
    destruct (CV_best_scan E self)
      as [[Hbest _]|(n & avg & Hbest & Hr & _)]; rewrite Hbest in *.
    + destruct (Hnone (GaussianHMM_new None (random_state self))
                      (X self) (lengths self) eq_refl) as [e He].
      rewrite He in Hf. discriminate.
    + exists n. split; [reflexivity|exact Hr].
  - intros H. unfold SelectorConstant_select in H.
    apply base_model_Some in H. destruct H as (f & _ & ->). reflexivity.
Qed.

End StateCount.

(* ------------------------------------------------------------------ *)
(** ** Dictionaries *)

Lemma string_eqb_false (a b : string) : a <> b -> String.eqb a b = false.
Proof. intros H. apply String.eqb_neq. exact H. Qed.

Lemma dict_set_keys_In {V : Type} (d : dict V) (k : string) (v : V) (w : string) :
  In w (dict_keys (dict_set d k v)) <-> w = k \/ In w (dict_keys d).
Proof.
  unfold dict_keys. induction d as [|[k' v'] t IH]; simpl.
  - intuition.
  - destruct (String.eqb_spec k' k) as [->|Hne]; simpl.
    + intuition.
    + rewrite IH. intuition.
Qed.

Lemma dict_set_keys_NoDup {V : Type} (d : dict V) (k : string) (v : V) :
  NoDup (dict_keys d) -> NoDup (dict_keys (dict_set d k v)).
Proof.
  unfold dict_keys. induction d as [|[k' v'] t IH]; simpl; intros H.
  - constructor; [intros []|constructor].
  - inversion H; subst.
    destruct (String.eqb_spec k' k) as [->|Hne]; simpl.
    + constructor; assumption.
    + constructor; [|auto]. intros Hin.
      apply (dict_set_keys_In t k v k') in Hin.
      destruct Hin as [?|?]; [congruence|contradiction].
Qed.

Lemma dict_set_fresh {V : Type} (d : dict V) (k : string) (v : V) :
  ~ In k (dict_keys d) -> dict_set d k v = d ++ [(k, v)].
Proof.
  unfold dict_keys. induction d as [|[k' v'] t IH]; simpl; intros H.
  - reflexivity.
  - rewrite string_eqb_false by (intros ->; apply H; left; reflexivity).
    rewrite IH; [reflexivity|]. intros Hin; apply H; right; exact Hin.
Qed.

Lemma dict_getitem_key {V : Type} (d : dict V) (k : string) :
  In k (dict_keys d) -> exists v, dict_getitem d k = Ok v.
Proof.
  unfold dict_keys. induction d as [|[k' v'] t IH]; simpl; intros H.
  - destruct H.
  - destruct (String.eqb_spec k' k) as [->|Hne]; [eauto|].
    destruct H as [H|H]; [congruence|auto].
Qed.

Lemma dict_getitem_In {V : Type} (d : dict V) (k : string) (v : V) :
  dict_getitem d k = Ok v -> In (k, v) d.
Proof.
  induction d as [|[k' v'] t IH]; simpl; intros H.
  - discriminate.
  - destruct (String.eqb_spec k' k) as [->|Hne].
    + inversion H; subst. left; reflexivity.
    + right; auto.
Qed.

Lemma dict_getitem_NoDup {V : Type} (d : dict V) (k : string) (v : V) :
  NoDup (dict_keys d) -> In (k, v) d -> dict_getitem d k = Ok v.
Proof.
  unfold dict_keys. induction d as [|[k' v'] t IH]; simpl; intros Hnd H.
  - destruct H.
  - inversion Hnd; subst.
    destruct H as [H|H].
    + inversion H; subst. rewrite String.eqb_refl. reflexivity.
    + destruct (String.eqb_spec k' k) as [->|Hne]; [|auto].
      exfalso. match goal with Hn : ~ In _ _ |- _ => apply Hn end.
      apply in_map_iff. exists (k, v). split; [reflexivity|exact H].
Qed.

(* ------------------------------------------------------------------ *)
(** ** [max] with a key *)

Section PyMax.

Variable A : Type.
Variable key : A -> result float.
Variable f : A -> float.

Lemma py_max_from_total (m : A) (mv : float) (l : list A) :
  (forall k, In k l -> exists v, key k = Ok v) ->
  exists g, py_max_from key m mv l = Ok g /\ (g = m \/ In g l).
Proof.
  revert m mv. induction l as [|a t IH]; intros m mv Hk; simpl.
  - exists m. auto.
  - destruct (Hk a (or_introl eq_refl)) as [v Hv]. rewrite Hv. simpl.
    assert (Hk' : forall k, In k t -> exists v, key k = Ok v)
      by (intros k Hin; apply Hk; right; exact Hin).
    destruct (PyFloat.gt v mv).
    + destruct (IH a v Hk') as (g & Hg & [Heq|Hin]); exists g; auto.
    + destruct (IH m mv Hk') as (g & Hg & [Heq|Hin]); exists g; auto.
Qed.

Lemma py_max_total (l : list A) :
  l <> [] -> (forall k, In k l -> exists v, key k = Ok v) ->
  exists g, py_max l key = Ok g /\ In g l.
Proof.
  destruct l as [|a t]; [congruence|]. intros _ Hk. simpl.
  destruct (Hk a (or_introl eq_refl)) as [v Hv]. rewrite Hv. simpl.
  destruct (py_max_from_total a v t) as (g & Hg & [Heq|Hin]);
    [intros k Hin; apply Hk; right; exact Hin| |]; exists g; auto.
Qed.

Lemma py_max_from_spec (m : A) (mv : float) (l : list A) (g : A) :
  (forall k, In k l -> key k = Ok (f k)) ->
  py_max_from key m mv l = Ok g ->
  (g = m /\ forall x, In x l -> PyFloat.gt (f x) mv = false)
  \/
  (exists l1 l2,
      l = l1 ++ g :: l2 /\ PyFloat.gt (f g) mv = true /\
      (forall x, In x l1 -> PyFloat.ge (f x) (f g) = false) /\
      (forall x, In x l2 -> PyFloat.gt (f x) (f g) = false)).
Proof.
  revert m mv. induction l as [|a t IH]; intros m mv Hk; simpl.
  - intros H; inversion H; subst. left. split; [reflexivity|intros ? []].
  - rewrite (Hk a (or_introl eq_refl)). simpl.
    assert (Hk' : forall k, In k t -> key k = Ok (f k))
      by (intros k Hin; apply Hk; right; exact Hin).
    destruct (PyFloat.gt (f a) mv) eqn:Hgt; intros H.
    + right. destruct (IH _ _ Hk' H)
        as [[-> Hall]|(l1 & l2 & -> & Hg & H1 & H2)].
      * exists [], t. simpl. repeat split; auto. intros ? [].
      * exists (a :: l1), l2. simpl. split; [reflexivity|]. split.
        -- exact (PyFloatFacts.lt_trans _ _ _ Hgt Hg).
        -- split; [|exact H2]. intros x [<-|Hin]; [|auto].
           apply PyFloatFacts.lt_not_le. exact Hg.
    + destruct (IH _ _ Hk' H)
        as [[-> Hall]|(l1 & l2 & -> & Hg & H1 & H2)].
      * left. split; [reflexivity|]. intros x [<-|Hin]; auto.
      * right. exists (a :: l1), l2. simpl. split; [reflexivity|].
        split; [exact Hg|]. split; [|exact H2].
        intros x [<-|Hin]; [|auto].
        destruct (PyFloat.ge (f a) (f g)) eqn:Hle; [|reflexivity].
        pose proof (PyFloatFacts.lt_le_trans _ _ _ Hg Hle) as Hlt.
        unfold PyFloat.gt, PyFloat.lt in *. congruence.
Qed.

Lemma py_max_spec (l : list A) (g : A) :
  (forall k, In k l -> key k = Ok (f k)) ->
  py_max l key = Ok g ->
  exists l1 l2,
    l = l1 ++ g :: l2 /\
    (forall x, In x l1 -> PyFloat.ge (f x) (f g) = false) /\
    (forall x, In x l2 -> PyFloat.gt (f x) (f g) = false).
Proof.
  destruct l as [|a t]; [discriminate|]. intros Hk. simpl.
  rewrite (Hk a (or_introl eq_refl)). simpl. intros H.
  apply py_max_from_spec in H;
    [|intros k Hin; apply Hk; right; exact Hin].
  destruct H as [[-> Hall]|(l1 & l2 & -> & Hg & H1 & H2)].
  - exists [], t. simpl. repeat split; auto. intros ? [].
  - exists (a :: l1), l2. simpl. split; [reflexivity|].
    split; [|exact H2]. intros x [<-|Hin]; [|auto].
    apply PyFloatFacts.lt_not_le. exact Hg.
Qed.

End PyMax.

Lemma best_guess_first_max (d : dict float) (g : string) :
  best_guess d = Ok g -> is_first_max (dict_keys d) d g.
Proof.
  unfold best_guess. intros H.
  set (f := fun k => match dict_getitem d k with Ok v => v | Raise _ => nan end).
  assert (Hk : forall k, In k (dict_keys d) -> dict_getitem d k = Ok (f k)).
  { intros k Hin. destruct (dict_getitem_key d k Hin) as [v Hv].
    unfold f. rewrite Hv. reflexivity. }
  destruct (py_max_spec _ _ f _ _ Hk H) as (l1 & l2 & Hl & H1 & H2).
  assert (Hg : In g (dict_keys d))
    by (rewrite Hl; apply in_or_app; right; left; reflexivity).
  exists l1, l2, (f g). split; [exact Hl|]. split; [apply Hk; exact Hg|].
  assert (Hval : forall w v', dict_getitem d w = Ok v' -> f w = v')
    by (intros w v' Hw; unfold f; rewrite Hw; reflexivity).
  split.
  - intros w v' Hin Hw. rewrite <- (Hval _ _ Hw). apply H1. exact Hin.
  - intros w v' Hw.
    assert (Hgt : PyFloat.gt v' (f g) = false).
    { assert (Hin : In w (dict_keys d)).
      { apply dict_getitem_In in Hw. unfold dict_keys.
        apply in_map_iff. exists (w, v'). split; [reflexivity|exact Hw]. }
      rewrite <- (Hval _ _ Hw).
      rewrite Hl in Hin. apply in_app_or in Hin. destruct Hin as [Hi|[<-|Hi]].
      - pose proof (H1 _ Hi) as Hge.
        destruct (PyFloat.gt (f w) (f g)) eqn:Hlt; [|reflexivity].
        pose proof (PyFloatFacts.lt_le _ _ Hlt) as Hle.
        unfold PyFloat.ge, PyFloat.le in *. congruence.
      - destruct (PyFloat.gt (f g) (f g)) eqn:Hlt; [|reflexivity].
        pose proof (PyFloatFacts.lt_le _ _ Hlt) as Hle.
        pose proof (PyFloatFacts.lt_not_le _ _ Hlt) as Hnle. congruence.
      - apply H2. exact Hi. }
    split; [exact Hgt|]. intros Hn Hn'.
    apply PyFloatFacts.not_lt_le; assumption.
Qed.

(* ------------------------------------------------------------------ *)
(** ** The recognizer *)

Section Recognizer.

Variable E : Engine.

Lemma score_entry_set x ls d word model :
  score_entry E x ls d (word, model) = dict_set d word (entry_score E x ls model).
Proof.
  unfold score_entry, entry_score. destruct (py_score E model x ls); reflexivity.
Qed.

Lemma score_fold_keys x ls (l : dict (option GaussianHMM)) (acc : dict float) :
  NoDup (dict_keys acc) ->
  NoDup (dict_keys (fold_left (score_entry E x ls) l acc)) /\
  forall w, In w (dict_keys (fold_left (score_entry E x ls) l acc)) <->
            In w (dict_keys acc) \/ In w (dict_keys l).
Proof.
  revert acc. induction l as [|[word model] t IH]; intros acc Hnd;
    cbn [fold_left].
  - split; [assumption|]. simpl. intuition.
  - rewrite score_entry_set.
    destruct (IH (dict_set acc word (entry_score E x ls model))
                 (dict_set_keys_NoDup _ _ _ Hnd)) as [H1 H2].
    split; [assumption|]. intros w. rewrite H2, dict_set_keys_In.
    unfold dict_keys. simpl. intuition congruence.
Qed.

Lemma score_fold_NoDup x ls (l : dict (option GaussianHMM)) (acc : dict float) :
  NoDup (dict_keys acc ++ dict_keys l) ->
  fold_left (score_entry E x ls) l acc = acc ++ map (entry_of E x ls) l.
Proof.
  revert acc. induction l as [|[word model] t IH]; intros acc Hnd;
    cbn [fold_left map].
  - rewrite app_nil_r. reflexivity.
  - rewrite score_entry_set.
    assert (Hfresh : ~ In word (dict_keys acc)).
    { intros Hin. apply NoDup_remove_2 in Hnd. apply Hnd.
      apply in_or_app. left. exact Hin. }
    rewrite (dict_set_fresh _ _ _ Hfresh).
    rewrite IH.
    + rewrite <- app_assoc. reflexivity.
    + unfold dict_keys in *. rewrite map_app. simpl.
      rewrite <- app_assoc. simpl. exact Hnd.
Qed.

Lemma score_table_map (models : dict (option GaussianHMM)) (x : matrix)
    (ls : list nat) :
  NoDup (dict_keys models) ->
  score_table E models (x, ls) = map (entry_of E x ls) models.
Proof.
  intros Hnd. unfold score_table, dict_items.
  rewrite score_fold_NoDup; [reflexivity|exact Hnd].
Qed.

Lemma score_table_keys (models : dict (option GaussianHMM)) (item : Xlengths) :
  NoDup (dict_keys (score_table E models item)) /\
  forall w, In w (dict_keys (score_table E models item)) <->
            In w (dict_keys models).
Proof.
  destruct item as [x ls]. unfold score_table, dict_items.
  destruct (score_fold_keys x ls models []) as [H1 H2]; [constructor|].
  split; [assumption|]. intros w. rewrite H2. simpl. intuition.
Qed.

Lemma score_table_keys_eq (models : dict (option GaussianHMM)) (item : Xlengths) :
  NoDup (dict_keys models) ->
  dict_keys (score_table E models item) = dict_keys models.
Proof.
  intros Hnd. destruct item as [x ls]. rewrite score_table_map by assumption.
  unfold dict_keys. rewrite map_map. reflexivity.
Qed.

Lemma score_table_lookup (models : dict (option GaussianHMM)) x ls w model :
  NoDup (dict_keys models) -> In (w, model) models ->
  dict_getitem (score_table E models (x, ls)) w = Ok (entry_score E x ls model).
Proof.
  intros Hnd Hin. apply dict_getitem_NoDup.
  - rewrite score_table_keys_eq; assumption.
  - rewrite score_table_map by assumption.
    apply in_map_iff. exists (w, model). split; [reflexivity|exact Hin].
Qed.

Lemma best_guess_total (models : dict (option GaussianHMM)) (item : Xlengths) :
  models <> [] ->
  exists g, best_guess (score_table E models item) = Ok g /\
            In g (dict_keys models).
Proof.
  intros Hne. destruct (score_table_keys models item) as [_ Hkeys].
  destruct (py_max_total _ (fun k => dict_getitem (score_table E models item) k)
              (dict_keys (score_table E models item))) as (g & Hg & Hin).
  - destruct models as [|[w m] t]; [congruence|].
    intros Hnil.
    assert (Hw : In w (dict_keys (score_table E ((w, m) :: t) item)))
      by (apply Hkeys; left; reflexivity).
    rewrite Hnil in Hw. destruct Hw.
  - intros k Hk. apply dict_getitem_key. exact Hk.
  - exists g. split; [exact Hg|]. apply Hkeys. exact Hin.
Qed.

Lemma recognize_loop_Ok (models : dict (option GaussianHMM))
    (items : list Xlengths) (ps : list (dict float)) (gs : list string) :
  models <> [] ->
  recognize_loop E models items ps gs =
  Ok (ps ++ map (score_table E models) items,
      gs ++ map (guess_of E models) items).
Proof.
  intros Hne. revert ps gs. induction items as [|item rest IH];
    intros ps gs; simpl.
  - rewrite !app_nil_r. reflexivity.
  - unfold guess_of at 1.
    destruct (best_guess_total models item Hne) as (g & Hg & _).
    rewrite Hg. simpl. rewrite IH, <- !app_assoc. reflexivity.
Qed.

Lemma recognize_Ok (models : dict (option GaussianHMM)) (test_set : SinglesData) :
  models <> [] ->
  recognize E models test_set =
  Ok (map (score_table E models) (map snd (get_all_Xlengths test_set)),
      map (guess_of E models) (map snd (get_all_Xlengths test_set))).
Proof.
  intros Hne. unfold recognize. rewrite recognize_loop_Ok by assumption.
  reflexivity.
Qed.

Lemma guess_of_first_max (models : dict (option GaussianHMM)) (item : Xlengths) :
  models <> [] -> NoDup (dict_keys models) ->
  is_first_max (dict_keys models) (score_table E models item)
               (guess_of E models item).
Proof.
  intros Hne Hnd. unfold guess_of.
  destruct (best_guess_total models item Hne) as (g & Hg & _).
  rewrite Hg. apply best_guess_first_max in Hg.
  rewrite score_table_keys_eq in Hg by assumption. exact Hg.
Qed.

End Recognizer.


Lemma Forall2_map_same {A B C : Type} (P : B -> C -> Prop) (f : A -> B)
    (g : A -> C) (l : list A) :
  (forall a, In a l -> P (f a) (g a)) -> Forall2 P (map f l) (map g l).
Proof.
  induction l as [|a l IH]; intros H; simpl; constructor.
  - apply H. left. reflexivity.
  - apply IH. intros b Hb. apply H. right. exact Hb.
Qed.

Section RecognizerProperties.

Variable E : Engine.

(** C2, as the code has it.  When a model of the bank raises on an item,
    the item's table holds negative infinity for its word and, for every
    model that scored, the value it returned; the item is not aborted and
    neither is the call; and the guess is not the failed model's word as
    soon as some word of the table scores strictly above negative
    infinity. *)
Theorem recognize_failure_isolation (models : dict (option GaussianHMM))
    (x : matrix) (ls : list nat) (w : string) (M : option GaussianHMM)
    (e : exn) :
  NoDup (dict_keys models) ->
  In (w, M) models ->
  py_score E M x ls = Raise e ->
  dict_getitem (score_table E models (x, ls)) w = Ok PyFloat.neg_inf /\
  (forall w' M' v,
      In (w', M') models -> py_score E M' x ls = Ok v ->
      dict_getitem (score_table E models (x, ls)) w' = Ok v) /\
  (exists g, best_guess (score_table E models (x, ls)) = Ok g) /\
  (forall test_set, exists r, recognize E models test_set = Ok r) /\
  (forall g,
      best_guess (score_table E models (x, ls)) = Ok g ->
      (exists w' v,
          dict_getitem (score_table E models (x, ls)) w' = Ok v /\
          PyFloat.gt v PyFloat.neg_inf = true) ->
      g <> w).
Proof.
  intros Hnd Hin Hfail.
  assert (Hne : models <> []) by (intros ->; destruct Hin).
  assert (Hw : dict_getitem (score_table E models (x, ls)) w =
               Ok PyFloat.neg_inf).
  { rewrite (score_table_lookup E models x ls w M Hnd Hin).
    unfold entry_score. rewrite Hfail. reflexivity. }
  split; [exact Hw|]. split; [|split; [|split]].
  - intros w' M' v Hin' Hs.
    rewrite (score_table_lookup E models x ls w' M' Hnd Hin').
    unfold entry_score. rewrite Hs. reflexivity.
  - destruct (best_guess_total E models (x, ls) Hne) as (g & Hg & _). eauto.
  - intros test_set. rewrite recognize_Ok by assumption. eauto.
  - intros g Hg (w' & v & Hw' & Hgt) ->.
    apply best_guess_first_max in Hg.
    destruct Hg as (l1 & l2 & v0 & _ & Hv0 & _ & Hall).
    rewrite Hw in Hv0. inversion Hv0; subst v0.
    destruct (Hall _ _ Hw') as [Hgt' _]. congruence.
Qed.

(** C7, as the code has it.  For a bank that is not empty, [recognize]
    returns one score table and one guess per test item, in the order of
    the test items; each guess is a word of the table that no word beats
    and no earlier word of the bank matches, hence the first word with
    the maximum score whenever the scores are numbers. *)
Theorem recognize_ordered_first_max (models : dict (option GaussianHMM))
    (test_set : SinglesData) :
  models <> [] ->
  NoDup (dict_keys models) ->
  exists tables guesses,
    recognize E models test_set = Ok (tables, guesses) /\
    tables = map (score_table E models) (map snd (get_all_Xlengths test_set)) /\
    List.length guesses = List.length (get_all_Xlengths test_set) /\
    Forall2 (is_first_max (dict_keys models)) tables guesses.
Proof.
  intros Hne Hnd. rewrite recognize_Ok by assumption.
  eexists; eexists. split; [reflexivity|]. split; [reflexivity|].
  split; [rewrite !length_map; reflexivity|].
  apply Forall2_map_same. intros item _.
  apply guess_of_first_max; assumption.
Qed.

(** C10.  On a bank that is not empty [recognize] returns, however many
    scorings fail, and every table has exactly one entry per word of the
    bank; on an empty bank with a test item it raises [ValueError]. *)
Theorem recognize_total_on_nonempty_bank (test_set : SinglesData) :
  (forall models,
      models <> [] ->
      exists tables guesses,
        recognize E models test_set = Ok (tables, guesses) /\
        List.length tables = List.length (get_all_Xlengths test_set) /\
        List.length guesses = List.length (get_all_Xlengths test_set) /\
        Forall (fun table =>
                  NoDup (dict_keys table) /\
                  forall w, In w (dict_keys table) <-> In w (dict_keys models))
               tables)
  /\
  (get_all_Xlengths test_set <> [] ->
   recognize E [] test_set = Raise ValueError).
Proof.
  split.
  - intros models Hne. rewrite recognize_Ok by assumption.
    eexists; eexists. split; [reflexivity|].
    split; [rewrite !length_map; reflexivity|].
    split; [rewrite !length_map; reflexivity|].
    apply Forall_forall. intros table Hin. apply in_map_iff in Hin.
    destruct Hin as (item & <- & _). apply score_table_keys.
  - intros Hne. unfold recognize.
    destruct (get_all_Xlengths test_set) as [|[i [x ls]] t]; [congruence|].
    reflexivity.
Qed.

End RecognizerProperties.


Open Scope string_scope.

Lemma table_engine_rejects_None fit_ok score_of :
  fit_rejects_None (table_engine fit_ok score_of).
Proof.
  intros m x ls H. simpl. rewrite H. exists TypeError. reflexivity.
Qed.

(* ------------------------------------------------------------------ *)
(** ** The claims on concrete inputs *)

Ltac by_computation := vm_compute; reflexivity.

(** C1 fails where a candidate scores NaN: the selector returns the model
    of three states, whose BIC is 6, although the candidate of two states
    trained and scored and 6 <= NaN is false. *)
Lemma SelectorBIC_nan_candidate :
  SelectorBIC_select E_nan (sel_cat 2 3) = Ok (Some (hmm 3)) /\
  is_BIC_candidate E_nan (sel_cat 2 3) 3 (hmm 3) 6 /\
  is_BIC_candidate E_nan (sel_cat 2 3) 2 (hmm 2) nan /\
  PyFloat.le 6 nan = false.
Proof.
  split; [by_computation|]. split; [|split; [|by_computation]].
  - split; [by_computation|].
    exists (mkFitted 1 [] [] [] []), (-3)%float.
    repeat split; by_computation.
  - split; [by_computation|].
    exists (mkFitted 1 [] [] [] []), nan.
    repeat split; by_computation.
Qed.

Lemma SelectorBIC_select_minimal_witness :
  SelectorBIC_select E_ok (sel_cat 2 3) = Ok (Some (hmm 2)) /\
  exists n b,
    (2 <= n <= 3)%Z /\
    is_BIC_candidate E_ok (sel_cat 2 3) n (hmm 2) b /\
    PyFloat.is_nan b = false /\
    forall n' m' b',
      (2 <= n' <= 3)%Z ->
      is_BIC_candidate E_ok (sel_cat 2 3) n' m' b' ->
      PyFloat.lt b' b = false /\
      (PyFloat.is_nan b' = false -> PyFloat.le b b' = true).
Proof.
  split; [by_computation|].
  apply (SelectorBIC_select_minimal E_ok (sel_cat 2 3) (hmm 2)).
  by_computation.
Defined.

(** C2 fails twice.  In a bank of one model that raises, the guess is that
    model's word.  And a model that scores an item at negative infinity
    leaves a value in the table that is not finite. *)
Lemma recognize_failed_word_guessed :
  (py_score E_raise2 (Some (hmm 2)) X_cat [1] = Raise ValueError /\
   recognize E_raise2 bank_cat one_item =
     Ok ([[("CAT", neg_infinity)]], ["CAT"])) /\
  (py_score E_raise2_neg_inf (Some (hmm 3)) X_cat [1] = Ok neg_infinity /\
   dict_getitem (score_table E_raise2_neg_inf bank_cat_dog (X_cat, [1])) "DOG"
     = Ok neg_infinity /\
   PyFloat.is_finite neg_infinity = false).
Proof. repeat split; by_computation. Qed.

Lemma recognize_failure_isolation_witness :
  NoDup (dict_keys bank_cat_dog) /\
  In ("CAT", Some (hmm 2)) bank_cat_dog /\
  py_score E_raise2 (Some (hmm 2)) X_cat [1] = Raise ValueError /\
  dict_getitem (score_table E_raise2 bank_cat_dog (X_cat, [1])) "CAT"
    = Ok PyFloat.neg_inf /\
  (forall w' M' v,
      In (w', M') bank_cat_dog -> py_score E_raise2 M' X_cat [1] = Ok v ->
      dict_getitem (score_table E_raise2 bank_cat_dog (X_cat, [1])) w' = Ok v) /\
  (exists g, best_guess (score_table E_raise2 bank_cat_dog (X_cat, [1])) = Ok g) /\
  (forall test_set, exists r, recognize E_raise2 bank_cat_dog test_set = Ok r) /\
  (forall g,
      best_guess (score_table E_raise2 bank_cat_dog (X_cat, [1])) = Ok g ->
      (exists w' v,
          dict_getitem (score_table E_raise2 bank_cat_dog (X_cat, [1])) w' = Ok v /\
          PyFloat.gt v PyFloat.neg_inf = true) ->
      g <> "CAT").
Proof.
  assert (Hnd : NoDup (dict_keys bank_cat_dog)).
  { repeat constructor; simpl; intuition discriminate. }
  assert (Hin : In ("CAT", Some (hmm 2)) bank_cat_dog) by (left; reflexivity).
  assert (Hf : py_score E_raise2 (Some (hmm 2)) X_cat [1] = Raise ValueError)
    by reflexivity.
  split; [exact Hnd|]. split; [exact Hin|]. split; [exact Hf|].
  exact (recognize_failure_isolation E_raise2 bank_cat_dog X_cat [1] "CAT"
           (Some (hmm 2)) ValueError Hnd Hin Hf).
Defined.

(** C3 fails for the constant selector: with the default constant 3 and
    the range 5..10 it returns a model of three states. *)
Lemma SelectorConstant_outside_range :
  SelectorConstant_select E_ok (sel_cat 5 10) = Ok (Some (hmm 3)) /\
  n_components (hmm 3) = Some 3%Z /\
  ~ states_in_range (sel_cat 5 10) (hmm 3).
Proof.
  split; [by_computation|]. split; [reflexivity|].
  intros (k & Hk & Hr). inversion Hk; subst k. simpl in Hr. lia.
Qed.

Lemma selected_state_count_witness :
  (SelectorBIC_select E_ok (sel_cat 2 3) = Ok (Some (hmm 2)) /\
   states_in_range (sel_cat 2 3) (hmm 2)) /\
  (fit_rejects_None E_ok /\
   SelectorCV_select E_ok (sel_cat_dog 2 3) = Ok (Some (hmm 2)) /\
   states_in_range (sel_cat_dog 2 3) (hmm 2)) /\
  (SelectorConstant_select E_ok (sel_cat 5 10) = Ok (Some (hmm 3)) /\
   n_components (hmm 3) = Some (n_constant (sel_cat 5 10))).
Proof.
  assert (HB : SelectorBIC_select E_ok (sel_cat 2 3) = Ok (Some (hmm 2)))
    by by_computation.
  assert (HN : fit_rejects_None E_ok) by apply table_engine_rejects_None.
  assert (HC : SelectorCV_select E_ok (sel_cat_dog 2 3) = Ok (Some (hmm 2)))
    by by_computation.
  assert (HK : SelectorConstant_select E_ok (sel_cat 5 10) = Ok (Some (hmm 3)))
    by by_computation.
  split; [split; [exact HB|]|split; [split; [exact HN|split; [exact HC|]]|
                                    split; [exact HK|]]].
  - exact (proj1 (selected_state_count E_ok (sel_cat 2 3) (hmm 2))
                 (or_introl HB)).
  - exact (proj1 (proj2 (selected_state_count E_ok (sel_cat_dog 2 3) (hmm 2)))
                 HN HC).
  - exact (proj2 (proj2 (selected_state_count E_ok (sel_cat 5 10) (hmm 3))) HK).
Defined.

(** C4 fails twice.  On a vocabulary of one word there is no other word,
    the mean of the empty anti-likelihood list is NaN, so is every DIC, and
    the selector returns no model although both candidates trained and
    scored.  And where a candidate's DIC is NaN the selector returns
    another candidate whose DIC, here 0, is not greater than or equal to
    it. *)
Lemma SelectorDIC_single_word_or_nan :
  (SelectorDIC_select E_ok (sel_cat 2 3) = Ok None /\
   is_DIC_candidate E_ok (sel_cat 2 3) 2 (hmm 2) nan /\
   is_DIC_candidate E_ok (sel_cat 2 3) 3 (hmm 3) nan) /\
  (SelectorDIC_select E_nan (sel_cat_dog 2 3) = Ok (Some (hmm 3)) /\
   is_DIC_candidate E_nan (sel_cat_dog 2 3) 3 (hmm 3) 0 /\
   is_DIC_candidate E_nan (sel_cat_dog 2 3) 2 (hmm 2) nan /\
   PyFloat.ge 0 nan = false).
Proof.
  split.
  - split; [by_computation|]. split.
    + split; [by_computation|]. exists (-1)%float, [].
      repeat split; by_computation.
    + split; [by_computation|]. exists (-1.5)%float, [].
      repeat split; by_computation.
  - split; [by_computation|]. split; [|split; [|by_computation]].
    + split; [by_computation|]. exists (-3)%float, [(-3)%float].
      repeat split; by_computation.
    + split; [by_computation|]. exists nan, [nan].
      repeat split; by_computation.
Qed.

Lemma SelectorDIC_select_maximal_witness :
  SelectorDIC_select E_ok (sel_cat_dog 2 3) = Ok (Some (hmm 3)) /\
  exists n d,
    (2 <= n <= 3)%Z /\
    is_DIC_candidate E_ok (sel_cat_dog 2 3) n (hmm 3) d /\
    PyFloat.gt d PyFloat.neg_inf = true /\
    forall n' m' d',
      (2 <= n' <= 3)%Z ->
      is_DIC_candidate E_ok (sel_cat_dog 2 3) n' m' d' ->
      PyFloat.gt d' d = false /\
      ((n' < n)%Z -> PyFloat.ge d' d = false) /\
      (PyFloat.is_nan d' = false -> PyFloat.le d' d = true).
Proof.
  split; [by_computation|].
  apply (proj1 (SelectorDIC_select_maximal E_ok (sel_cat_dog 2 3)) (hmm 3)).
  by_computation.
Defined.


(** C6 fails where a candidate's mean fold score is NaN: the selector
    returns the full-data model of three states, whose mean is -3, although
    -3 >= NaN is false for the candidate of two states. *)
Lemma SelectorCV_nan_mean :
  SelectorCV_select E_nan (sel_cat_dog 2 3) = Ok (Some (hmm 3)) /\
  CV_try E_nan (sel_cat_dog 2 3) 3 = Ok (-3)%float /\
  CV_try E_nan (sel_cat_dog 2 3) 2 = Ok nan /\
  PyFloat.ge (-3) nan = false.
Proof. repeat split; by_computation. Qed.

Lemma SelectorCV_select_full_data_witness :
  fit_rejects_None E_ok /\
  SelectorCV_select E_ok (sel_cat_dog 2 3) = Ok (Some (hmm 2)) /\
  exists n avg f,
    (2 <= n <= 3)%Z /\
    CV_try E_ok (sel_cat_dog 2 3) n = Ok avg /\
    PyFloat.gt avg PyFloat.neg_inf = true /\
    engine_fit E_ok (GaussianHMM_new (Some n) 14) (X_cat ++ X_cat)%list [1; 1]
      = Ok f /\
    hmm 2 = mkGaussianHMM (Some n) "diag" 1000 14 false (Some f) /\
    forall n' avg',
      (2 <= n' <= 3)%Z ->
      CV_try E_ok (sel_cat_dog 2 3) n' = Ok avg' ->
      PyFloat.gt avg' avg = false /\
      ((n' < n)%Z -> PyFloat.ge avg' avg = false) /\
      (PyFloat.is_nan avg' = false -> PyFloat.le avg' avg = true).
Proof.
  assert (HN : fit_rejects_None E_ok) by apply table_engine_rejects_None.
  split; [exact HN|]. split; [by_computation|].
  apply (proj1 (SelectorCV_select_full_data E_ok (sel_cat_dog 2 3) HN) (hmm 2)).
  by_computation.
Defined.

(** C7 fails twice.  On an empty bank with a test item [recognize] raises
    instead of returning.  And where the first word scores NaN the guess
    is that word, although its score is not greater than or equal to the
    -3 of the second. *)
Lemma recognize_empty_bank_or_nan :
  recognize E_ok [] one_item = Raise ValueError /\
  recognize E_nan bank_cat_dog one_item =
    Ok ([[("CAT", nan); ("DOG", (-3)%float)]], ["CAT"]) /\
  PyFloat.ge nan (-3) = false.
Proof. repeat split; by_computation. Qed.

Lemma recognize_ordered_first_max_witness :
  bank_cat_dog <> [] /\
  NoDup (dict_keys bank_cat_dog) /\
  exists tables guesses,
    recognize E_ok bank_cat_dog two_items = Ok (tables, guesses) /\
    tables = map (score_table E_ok bank_cat_dog)
                 (map snd (get_all_Xlengths two_items)) /\
    List.length guesses = List.length (get_all_Xlengths two_items) /\
    Forall2 (is_first_max (dict_keys bank_cat_dog)) tables guesses.
Proof.
  assert (Hne : bank_cat_dog <> []) by discriminate.
  assert (Hnd : NoDup (dict_keys bank_cat_dog)).
  { repeat constructor; simpl; intuition discriminate. }
  split; [exact Hne|]. split; [exact Hnd|].
  exact (recognize_ordered_first_max E_ok bank_cat_dog two_items Hne Hnd).
Defined.


Lemma recognize_total_on_nonempty_bank_witness :
  (bank_cat_dog <> [] /\
   exists tables guesses,
     recognize E_raise2 bank_cat_dog two_items = Ok (tables, guesses) /\
     List.length tables = List.length (get_all_Xlengths two_items) /\
     List.length guesses = List.length (get_all_Xlengths two_items) /\
     Forall (fun table =>
               NoDup (dict_keys table) /\
               forall w, In w (dict_keys table) <-> In w (dict_keys bank_cat_dog))
            tables) /\
  (get_all_Xlengths two_items <> [] /\
   recognize E_raise2 [] two_items = Raise ValueError).
Proof.
  assert (Hne : bank_cat_dog <> []) by discriminate.
  assert (Hti : get_all_Xlengths two_items <> []) by discriminate.
  split.
  - split; [exact Hne|].
    exact (proj1 (recognize_total_on_nonempty_bank E_raise2 two_items)
                 bank_cat_dog Hne).
  - split; [exact Hti|].
    exact (proj2 (recognize_total_on_nonempty_bank E_raise2 two_items) Hti).
Defined.

(* ------------------------------------------------------------------ *)
(** ** Further properties of the selectors *)

Close Scope string_scope.


Lemma fold_left_filter_skip {S A : Type} (f : S -> A -> S) (p : A -> bool)
    (l : list A) (s : S) :
  (forall st a, p a = false -> f st a = st) ->
  fold_left f l s = fold_left f (filter p l) s.
Proof.
  intros Hskip. revert s. induction l as [|a l IH]; intros s; simpl;
    [reflexivity|].
  destruct (p a) eqn:Hp; simpl.
  - apply IH.
  - rewrite (Hskip s a Hp). apply IH.
Qed.

Lemma py_range_empty (start stop : Z) :
  (stop <= start)%Z -> py_range start stop = [].
Proof.
  intros H. unfold py_range.
  replace (Z.to_nat (stop - start)) with 0 by lia. reflexivity.
Qed.


Section MoreSelectors.

Variable E : Engine.

(** X2.  [SelectorBIC.select] returns no model exactly when no candidate
    state count in range trains and scores with a BIC strictly below
    positive infinity. *)
Theorem SelectorBIC_select_None_iff (self : ModelSelector) :
  SelectorBIC_select E self = Ok None <->
  forall n m b,
    (min_n_components self <= n <= max_n_components self)%Z ->
    is_BIC_candidate E self n m b -> PyFloat.lt b PyFloat.inf = false.
Proof.
  destruct (SelectorBIC_scan E self)
    as [[Hsel Hall]|(n & m & b & Hsel & Hr & Hc & Hbi & _)].
  - split; [intros _; exact Hall|intros _; exact Hsel].
  - split.
    + intros H. rewrite Hsel in H. discriminate.
    + intros H. rewrite (H _ _ _ Hr Hc) in Hbi. discriminate.
Qed.

(** X3.  [SelectorBIC.select] keeps the first minimum: no candidate with
    fewer states than the returned model has a BIC less than or equal to
    the returned model's. *)
Theorem SelectorBIC_select_first_minimum (self : ModelSelector)
    (m : GaussianHMM) :
  SelectorBIC_select E self = Ok (Some m) ->
  exists n b,
    (min_n_components self <= n <= max_n_components self)%Z /\
    is_BIC_candidate E self n m b /\
    forall n' m' b',
      (min_n_components self <= n' < n)%Z ->
      is_BIC_candidate E self n' m' b' -> PyFloat.le b' b = false.
Proof.
  intros H.
  destruct (SelectorBIC_scan E self)
    as [[Hsel _]|(n & m0 & b & Hsel & Hr & Hc & _ & Hall)];
    rewrite Hsel in H; [discriminate|]. inversion H; subst m0.
  exists n, b. split; [exact Hr|]. split; [exact Hc|].
  intros n' m' b' Hr' Hc'.
  apply (proj2 (Hall n' m' b' ltac:(lia) Hc')). lia.
Qed.

(** X4.  With an empty range (max_n_components below min_n_components) no
    candidate is tried: the BIC and DIC selectors return no model, and the
    CV selector asks the trainer for a model with no state count. *)
Theorem empty_range_selects_nothing (self : ModelSelector) :
  (max_n_components self < min_n_components self)%Z ->
  SelectorBIC_select E self = Ok None /\
  SelectorDIC_select E self = Ok None /\
  CV_best_num_components E self = None /\
  SelectorCV_select E self = base_model E self None.
Proof.
  intros H.
  assert (Hr : py_range (min_n_components self) (max_n_components self + 1)
               = []) by (apply py_range_empty; lia).
  unfold SelectorBIC_select, SelectorDIC_select, SelectorCV_select,
    CV_best_num_components. rewrite Hr. simpl. repeat split; reflexivity.
Qed.

Lemma fit_fails_BIC_step (self : ModelSelector) st n :
  fit_succeeds E self n = false -> BIC_step E self st n = st.
Proof.
  unfold fit_succeeds, BIC_step, BIC_try. destruct st as [bm bs].
  destruct (base_model_cases E self (Some n))
    as [(f & _ & Hb)|(e & _ & Hb)]; rewrite Hb; simpl;
    [discriminate|reflexivity].
Qed.

Lemma fit_fails_DIC_step (self : ModelSelector) st n :
  fit_succeeds E self n = false -> DIC_step E self st n = st.
Proof.
  unfold fit_succeeds, DIC_step, DIC_try. destruct st as [bm bs].
  destruct (base_model_cases E self (Some n))
    as [(f & _ & Hb)|(e & _ & Hb)]; rewrite Hb; simpl;
    [discriminate|reflexivity].
Qed.

(** X5.  A state count whose training raises is skipped, not penalised:
    the BIC and DIC selectors return what the same search returns over
    only the state counts whose full-data fit succeeds. *)
Theorem selectors_skip_failed_fits (self : ModelSelector) :
  SelectorBIC_select E self =
    Ok (fst (fold_left (BIC_step E self)
               (filter (fit_succeeds E self)
                       (py_range (min_n_components self)
                                 (max_n_components self + 1)))
               (None, PyFloat.inf))) /\
  SelectorDIC_select E self =
    Ok (fst (fold_left (DIC_step E self)
               (filter (fit_succeeds E self)
                       (py_range (min_n_components self)
                                 (max_n_components self + 1)))
               (None, PyFloat.neg_inf))).
Proof.
  unfold SelectorBIC_select, SelectorDIC_select. split; f_equal; f_equal;
    apply fold_left_filter_skip; intros st n Hn.
  - apply fit_fails_BIC_step. exact Hn.
  - apply fit_fails_DIC_step. exact Hn.
Qed.

End MoreSelectors.

Lemma mapM_Ok_Forall2 {A B : Type} (f : A -> result B) (l : list A)
    (v : list B) :
  mapM f l = Ok v -> Forall2 (fun a b => In a l /\ f a = Ok b) l v.
Proof.
  revert v. induction l as [|a t IH]; intros v; simpl.
  - intros H; inversion H; constructor.
  - destruct (f a) as [b|e] eqn:Hf; simpl; [|discriminate].
    destruct (mapM f t) as [bs|e] eqn:Hm; simpl; [|discriminate].
    intros H; inversion H; subst. constructor.
    + split; [left; reflexivity|exact Hf].
    + eapply Forall2_impl; [|apply IH; reflexivity].
      intros a' b' [Hin Hb]. split; [right; exact Hin|exact Hb].
Qed.

Lemma mapM_Raise {A B : Type} (f : A -> result B) (l : list A) (a : A)
    (e : exn) :
  In a l -> f a = Raise e -> exists e', mapM f l = Raise e'.
Proof.
  induction l as [|a0 t IH]; simpl; intros Hin Hf; [destruct Hin|].
  destruct (f a0) as [b|e0] eqn:Hf0; simpl; [|eauto].
  destruct Hin as [->|Hin]; [congruence|].
  destruct (IH Hin Hf) as [e' He']. rewrite He'. simpl. eauto.
Qed.

Lemma mapM_all_Ok {A B : Type} (f : A -> result B) (l : list A) :
  (forall a, In a l -> exists b, f a = Ok b) -> exists v, mapM f l = Ok v.
Proof.
  induction l as [|a t IH]; simpl; intros H; [eauto|].
  destruct (H a (or_introl eq_refl)) as [b Hb]. rewrite Hb. simpl.
  destruct IH as [v Hv]; [intros a' Ha'; apply H; right; exact Ha'|].
  rewrite Hv. simpl. eauto.
Qed.

Lemma filter_other_keeps_all {V : Type} (w : string) (l : list (string * V)) :
  ~ In w (map fst l) ->
  filter (fun '(k, _) => negb (String.eqb k w)) l = l.
Proof.
  induction l as [|[k v] t IH]; simpl; intros H; [reflexivity|].
  rewrite string_eqb_false by (intros ->; apply H; left; reflexivity).
  simpl. rewrite IH; [reflexivity|]. intros Hin; apply H; right; exact Hin.
Qed.

Lemma filter_other_length {V : Type} (w : string) (l : list (string * V)) :
  NoDup (map fst l) -> In w (map fst l) ->
  S (List.length (filter (fun '(k, _) => negb (String.eqb k w)) l))
  = List.length l.
Proof.
  induction l as [|[k v] t IH]; simpl; intros Hnd Hin; [destruct Hin|].
  inversion Hnd; subst.
  destruct (String.eqb_spec k w) as [->|Hne]; simpl.
  - rewrite filter_other_keeps_all by assumption. reflexivity.
  - destruct Hin as [Hin|Hin]; [congruence|]. rewrite IH by assumption.
    reflexivity.
Qed.

Lemma is_nan_true (x : float) :
  PyFloat.is_nan x = true <-> Prim2SF x = S754_nan.
Proof.
  pose proof (PyFloatFacts.is_nan_false x) as H.
  destruct (PyFloat.is_nan x); split; intros Hx; try reflexivity.
  - destruct (Prim2SF x) eqn:Hp; try reflexivity;
      (assert (Hf : false = true -> False) by discriminate;
       exfalso; destruct H as [_ H]; apply Hf; symmetry; apply H; discriminate).
  - discriminate.
  - exfalso. destruct H as [H _]. apply (H eq_refl). exact Hx.
Qed.

Lemma is_nan_sub_r (x y : float) :
  PyFloat.is_nan y = true -> PyFloat.is_nan (x - y)%float = true.
Proof.
  rewrite !is_nan_true. intros Hy. rewrite sub_spec, Hy.
  unfold SF64sub, SFsub. destruct (Prim2SF x); reflexivity.
Qed.

Section MoreDIC.

Variable E : Engine.

(** X6.  What the constant, BIC and CV selectors return for a word depends
    only on that word's sequences, X and lengths, the range, the seed and
    the constant: the other words of the vocabulary play no part. *)
Theorem selection_ignores_other_words (self self' : ModelSelector) :
  sequences self = sequences self' ->
  X self = X self' ->
  lengths self = lengths self' ->
  n_constant self = n_constant self' ->
  min_n_components self = min_n_components self' ->
  max_n_components self = max_n_components self' ->
  random_state self = random_state self' ->
  SelectorConstant_select E self = SelectorConstant_select E self' /\
  SelectorBIC_select E self = SelectorBIC_select E self' /\
  SelectorCV_select E self = SelectorCV_select E self'.
Proof.
  destruct self, self'; simpl. intros; subst.
  repeat split; reflexivity.
Qed.

(** X7.  When the anti-likelihood list of [SelectorDIC.select] is built, it
    holds one score per entry of the vocabulary whose word is not the
    target word, in the vocabulary's order: the target word's own data is
    never scored into it, and in a vocabulary that holds the target word
    the list is one shorter than the vocabulary. *)
Theorem anti_logL_vec_other_words (self : ModelSelector) (m : GaussianHMM)
    (anti : list float) :
  anti_logL_vec E self (Some m) = Ok anti ->
  Forall2 (fun entry logL =>
             In entry (hwords self) /\
             fst entry <> this_word self /\
             engine_score E m (fst (snd entry)) (snd (snd entry)) = Ok logL)
          (other_words self) anti /\
  (NoDup (dict_keys (hwords self)) ->
   In (this_word self) (dict_keys (hwords self)) ->
   S (List.length anti) = List.length (hwords self)).
Proof.
  unfold anti_logL_vec. intros H. apply mapM_Ok_Forall2 in H.
  fold (other_words self) in H. split.
  - eapply Forall2_impl; [|exact H].
    intros [w [xo lo]] logL [Hin Hs]. unfold other_words in Hin.
    apply filter_In in Hin. destruct Hin as [Hin Hw].
    split; [exact Hin|]. split; [|exact Hs]. simpl.
    intros ->. rewrite String.eqb_refl in Hw. discriminate.
  - intros Hnd Hin. rewrite <- (Forall2_length H).
    unfold other_words, dict_items. apply filter_other_length; assumption.
Qed.

(** X8.  A candidate is dropped whole when scoring any other word raises:
    the body of the [try] raises and the best pair is left as it was,
    whatever the candidate scored on the target word. *)
Theorem DIC_candidate_dropped_on_anti_failure (self : ModelSelector) (n : Z)
    (m : GaussianHMM) (w : string) (X_other : matrix)
    (lengths_other : list nat) (e : exn) :
  base_model E self (Some n) = Ok (Some m) ->
  In (w, (X_other, lengths_other)) (hwords self) ->
  w <> this_word self ->
  engine_score E m X_other lengths_other = Raise e ->
  (exists e', DIC_try E self n = Raise e') /\
  forall st, DIC_step E self st n = st.
Proof.
  intros Hb Hin Hw Hs.
  assert (Ht : exists e', DIC_try E self n = Raise e').
  { unfold DIC_try. rewrite Hb. simpl.
    destruct (engine_score E m (X self) (lengths self)); simpl; [|eauto].
    destruct (mapM_Raise
                (fun '(_, (xo, lo)) => py_score E (Some m) xo lo)
                (other_words self) (w, (X_other, lengths_other)) e)
      as [e' He'].
    - unfold other_words. apply filter_In. split; [exact Hin|].
      rewrite string_eqb_false by assumption. reflexivity.
    - exact Hs.
    - unfold anti_logL_vec. fold (other_words self). rewrite He'. simpl. eauto. }
  split; [exact Ht|]. intros [bm bs]. unfold DIC_step.
  destruct Ht as [e' ->]. reflexivity.
Qed.

(** X9.  In a vocabulary with no word other than the target word,
    [SelectorDIC.select] returns no model: the anti-likelihood list is
    empty, its mean is NaN as [np.mean] of an empty list is, and a NaN
    score never beats the initial best. *)
Theorem SelectorDIC_alone_selects_nothing (self : ModelSelector) :
  other_words self = [] ->
  PyFloat.is_nan (np_mean E []) = true ->
  SelectorDIC_select E self = Ok None.
Proof.
  intros Hother Hnan.
  destruct (SelectorDIC_scan E self)
    as [[Hsel _]|(n & m & d & _ & _ & Hc & Hbi & _)]; [exact Hsel|].
  exfalso. destruct Hc as (_ & logL & anti & _ & Ha & ->).
  unfold anti_logL_vec in Ha. fold (other_words self) in Ha.
  rewrite Hother in Ha. simpl in Ha. inversion Ha; subst anti.
  destruct (PyFloatFacts.lt_not_nan _ _ Hbi) as [_ Hd].
  rewrite (is_nan_sub_r logL _ Hnan) in Hd. discriminate.
Qed.

End MoreDIC.

Lemma KFold_split_inv (k n : nat) (folds : list (list nat * list nat)) :
  KFold_split k n = Ok folds ->
  2 <= k /\ k <= n /\ List.length folds = k /\
  Forall (fold_partitions n) folds.
Proof.
  intros H. unfold KFold_split in H.
  destruct (Nat.ltb_spec k 2); [discriminate|].
  destruct (Nat.ltb_spec n k); [discriminate|].
  destruct (KFold_split_Ok k n) as (folds' & Hf & Hl & Hp); [lia|lia|].
  unfold KFold_split in Hf.
  destruct (Nat.ltb_spec k 2); [lia|]. destruct (Nat.ltb_spec n k); [lia|].
  rewrite Hf in H. inversion H; subst. repeat split; try lia; assumption.
Qed.

Lemma kfold_from_held_out (n c : nat) (sizes : list nat) :
  List.concat (map snd (kfold_from n c sizes)) = seq c (list_sum sizes).
Proof.
  revert c. induction sizes as [|sz t IH]; intros c; simpl; [reflexivity|].
  rewrite IH, <- seq_app. reflexivity.
Qed.

Lemma combine_sequences_Ok (idx : list nat) (seqs : list sequence) :
  (forall i, In i idx -> i < List.length seqs) ->
  exists x ls,
    combine_sequences idx seqs = Ok (x, ls) /\
    list_sum ls = List.length x /\
    List.length ls = List.length idx.
Proof.
  intros Hidx. unfold combine_sequences.
  destruct (mapM_all_Ok
              (fun i => match nth_error seqs i with
                        | Some s => Ok s
                        | None => Raise IndexError
                        end) idx) as [v Hv].
  - intros i Hi. destruct (nth_error seqs i) as [s|] eqn:Hn; [eauto|].
    apply nth_error_None in Hn. specialize (Hidx i Hi). lia.
  - rewrite Hv. simpl. eexists; eexists. split; [reflexivity|].
    split.
    + rewrite length_concat. reflexivity.
    + rewrite length_map. apply mapM_Ok_Forall2 in Hv.
      symmetry. exact (Forall2_length Hv).
Qed.

Lemma fold_partitions_indices (n : nat) (fold : list nat * list nat) :
  fold_partitions n fold ->
  (forall i, In i (fst fold) -> i < n) /\
  (forall i, In i (snd fold) -> i < n) /\
  (forall i, In i (fst fold) -> ~ In i (snd fold)).
Proof.
  intros [Hp _].
  assert (Hlt : forall i, In i (fst fold ++ snd fold) -> i < n).
  { intros i Hi. apply (Permutation_in _ Hp) in Hi. apply in_seq in Hi. lia. }
  assert (Hnd : NoDup (fst fold ++ snd fold)).
  { apply (Permutation_NoDup (Permutation_sym Hp)). apply seq_NoDup. }
  split; [|split].
  - intros i Hi. apply Hlt. apply in_or_app. left. exact Hi.
  - intros i Hi. apply Hlt. apply in_or_app. right. exact Hi.
  - intros i Hi Hi'. revert Hnd Hi Hi'. generalize (fst fold) as l1.
    induction l1 as [|a l1 IH]; simpl; intros Hnd Hi Hi'; [destruct Hi|].
    inversion Hnd; subst. destruct Hi as [->|Hi].
    + match goal with Hn : ~ In _ _ |- _ => apply Hn end.
      apply in_or_app. right. exact Hi'.
    + apply IH; assumption.
Qed.

Section MoreCV.

Variable E : Engine.

(** X10.  When the evaluation of a candidate by [SelectorCV.select]
    completes, it has collected exactly one log-likelihood per fold (two
    or three) for a word with more than one sequence, and exactly one for
    a word with at most one sequence. *)
Theorem cv_logL_vec_one_score_per_fold (self : ModelSelector) (n : Z)
    (logL_vec : list float) :
  cv_logL_vec E self n = Ok logL_vec ->
  List.length logL_vec =
  if 1 <? List.length (sequences self) then cv_n_splits self else 1.
Proof.
  unfold cv_logL_vec.
  destruct (1 <? List.length (sequences self)).
  - destruct (KFold_split _ _) as [folds|e] eqn:Hk; simpl; [|discriminate].
    intros H. apply mapM_Ok_Forall2 in H.
    apply KFold_split_inv in Hk. destruct Hk as (_ & _ & Hl & _).
    rewrite <- (Forall2_length H). exact Hl.
  - destruct (base_model E self (Some n)) as [hm|e]; simpl; [|discriminate].
    destruct (py_score E hm (X self) (lengths self)); simpl; [|discriminate].
    intros H; inversion H; reflexivity.
Qed.

(** X11.  In a fold of [SelectorCV.select] the two index lists are
    disjoint and within the word's sequences, so both splits are
    reconstituted without an index error, each with lengths that sum to
    its number of rows, and the held-out split holds at least one
    sequence: the fold raises only if the engine's fit or score does. *)
Theorem cv_fold_fails_only_in_engine (self : ModelSelector) (n : Z)
    (folds : list (list nat * list nat)) (fold : list nat * list nat) :
  KFold_split (cv_n_splits self) (List.length (sequences self)) = Ok folds ->
  In fold folds ->
  (forall i, In i (fst fold) -> ~ In i (snd fold)) /\
  exists X_train lengths_train X_test lengths_test,
    combine_sequences (fst fold) (sequences self) = Ok (X_train, lengths_train) /\
    combine_sequences (snd fold) (sequences self) = Ok (X_test, lengths_test) /\
    list_sum lengths_train = List.length X_train /\
    list_sum lengths_test = List.length X_test /\
    lengths_test <> [] /\
    cv_fold E self n fold =
      (hmm_model <- GaussianHMM_fit E
                      (GaussianHMM_new (Some n) (random_state self))
                      X_train lengths_train ;;
       engine_score E hmm_model X_test lengths_test).
Proof.
  intros Hk Hin. apply KFold_split_inv in Hk.
  destruct Hk as (_ & _ & _ & Hp). rewrite Forall_forall in Hp.
  specialize (Hp fold Hin).
  destruct (fold_partitions_indices _ _ Hp) as (Htr & Hte & Hdis).
  split; [exact Hdis|].
  destruct (combine_sequences_Ok (fst fold) (sequences self) Htr)
    as (xtr & ltr & Hctr & Hstr & _).
  destruct (combine_sequences_Ok (snd fold) (sequences self) Hte)
    as (xte & lte & Hcte & Hste & Hlte).
  exists xtr, ltr, xte, lte.
  split; [exact Hctr|]. split; [exact Hcte|]. split; [exact Hstr|].
  split; [exact Hste|]. split.
  - destruct Hp as [_ Hne]. intros ->. simpl in Hlte.
    destruct (snd fold); [congruence|discriminate].
  - unfold cv_fold. destruct fold as [tr te]. simpl in *.
    rewrite Hctr. simpl.
    destruct (GaussianHMM_fit E _ xtr ltr); simpl; [|reflexivity].
    rewrite Hcte. reflexivity.
Qed.

(** X12.  Across the folds of one candidate every sequence of the word is
    held out exactly once: the held-out index lists, taken in fold order,
    are the sequence indices in increasing order. *)
Theorem cv_folds_hold_out_each_sequence_once (self : ModelSelector)
    (folds : list (list nat * list nat)) :
  KFold_split (cv_n_splits self) (List.length (sequences self)) = Ok folds ->
  List.concat (map snd folds) = seq 0 (List.length (sequences self)).
Proof.
  intros Hk. pose proof (KFold_split_inv _ _ _ Hk) as (H2 & _ & _ & _).
  unfold KFold_split in Hk.
  destruct (cv_n_splits self <? 2); [discriminate|].
  destruct (List.length (sequences self) <? cv_n_splits self);
    [discriminate|].
  inversion Hk; subst folds. rewrite kfold_from_held_out.
  rewrite fold_sizes_sum by lia. reflexivity.
Qed.

(** X13.  Given that the trainer cannot fit a model with no state count,
    [SelectorCV.select] returns no model in exactly two cases: no candidate
    has a mean fold score strictly above negative infinity, or the fit on
    the whole data at the best state count raises. *)
Theorem SelectorCV_select_None_iff (self : ModelSelector) :
  fit_rejects_None E ->
  (SelectorCV_select E self = Ok None <->
   (forall n avg,
       (min_n_components self <= n <= max_n_components self)%Z ->
       CV_try E self n = Ok avg -> PyFloat.gt avg PyFloat.neg_inf = false)
   \/
   (exists n e,
       CV_best_num_components E self = Some n /\
       engine_fit E (GaussianHMM_new (Some n) (random_state self))
                  (X self) (lengths self) = Raise e)).
Proof.
  intros Hnone. unfold SelectorCV_select.
  destruct (CV_best_scan E self)
    as [[Hbest Hall]|(n & avg & Hbest & Hr & Hc & Hbi & _)]; rewrite Hbest.
  - split; [intros _; left; exact Hall|]. intros _.
    destruct (base_model_cases E self None)
      as [(f & Hf & _)|(e & _ & Hb)]; [|exact Hb].
    destruct (Hnone (GaussianHMM_new None (random_state self))
                    (X self) (lengths self) eq_refl) as [e He].
    rewrite He in Hf. discriminate.
  - destruct (base_model_cases E self (Some n))
      as [(f & Hf & Hb)|(e & Hf & Hb)]; rewrite Hb.
    + split; [discriminate|].
      intros [Hall|(n' & e & Hn' & He)].
      * rewrite (Hall _ _ Hr Hc) in Hbi. discriminate.
      * inversion Hn'; subst n'. rewrite He in Hf. discriminate.
    + split; [|reflexivity]. intros _. right. exists n, e.
      split; [reflexivity|exact Hf].
Qed.

End MoreCV.

Lemma py_max_from_stays {A : Type} (key : A -> result float) (f : A -> float)
    (m : A) (mv : float) (l : list A) :
  (forall k, In k l -> key k = Ok (f k)) ->
  (forall k, In k l -> PyFloat.gt (f k) mv = false) ->
  py_max_from key m mv l = Ok m.
Proof.
  induction l as [|a t IH]; simpl; intros Hk Hgt; [reflexivity|].
  rewrite (Hk a (or_introl eq_refl)). simpl.
  rewrite (Hgt a (or_introl eq_refl)).
  apply IH; intros k Hin; [apply Hk|apply Hgt]; right; exact Hin.
Qed.

Section MoreRecognizer.

Variable E : Engine.

(** X14.  The guess for an item is the first word of the bank whenever no
    later word scores strictly above it; in particular when every model of
    the bank fails on the item. *)
Theorem recognize_guess_falls_on_first_word (w0 : string)
    (M0 : option GaussianHMM) (rest : dict (option GaussianHMM))
    (x : matrix) (ls : list nat) :
  NoDup (dict_keys ((w0, M0) :: rest)) ->
  ((forall w M, In (w, M) rest ->
                PyFloat.gt (entry_score E x ls M) (entry_score E x ls M0)
                = false) ->
   best_guess (score_table E ((w0, M0) :: rest) (x, ls)) = Ok w0) /\
  ((forall w M, In (w, M) ((w0, M0) :: rest) ->
                exists e, py_score E M x ls = Raise e) ->
   best_guess (score_table E ((w0, M0) :: rest) (x, ls)) = Ok w0).
Proof.
  intros Hnd.
  assert (Hgen : (forall w M, In (w, M) rest ->
                    PyFloat.gt (entry_score E x ls M) (entry_score E x ls M0)
                    = false) ->
                 best_guess (score_table E ((w0, M0) :: rest) (x, ls)) = Ok w0).
  { intros Hall. unfold best_guess.
    rewrite score_table_keys_eq by assumption.
    set (table := score_table E ((w0, M0) :: rest) (x, ls)).
    assert (H0 : dict_getitem table w0 = Ok (entry_score E x ls M0)).
    { apply score_table_lookup; [assumption|left; reflexivity]. }
    cbn [dict_keys map fst py_max]. rewrite H0. simpl.
    apply (py_max_from_stays _
             (fun k => match dict_getitem table k with
                       | Ok v => v
                       | Raise _ => nan
                       end)).
    - intros k Hin. apply in_map_iff in Hin. destruct Hin as ([w M] & <- & Hin).
      simpl. unfold table.
      rewrite (score_table_lookup E _ x ls w M Hnd (or_intror Hin)).
      reflexivity.
    - intros k Hin. apply in_map_iff in Hin. destruct Hin as ([w M] & <- & Hin).
      simpl. unfold table.
      rewrite (score_table_lookup E _ x ls w M Hnd (or_intror Hin)).
      apply (Hall w M Hin). }
  split; [exact Hgen|].
  intros Hfail. apply Hgen. intros w M Hin.
  destruct (Hfail w0 M0 (or_introl eq_refl)) as [e0 He0].
  destruct (Hfail w M (or_intror Hin)) as [e He].
  unfold entry_score. rewrite He0, He.
  apply PyFloatFacts.nothing_below_neg_inf.
Qed.

(** X15.  For a bank of distinct words, an item's score table lists the
    bank's words in the bank's order, each with the log-likelihood its model
    returned, or negative infinity where the model raised or is missing. *)
Theorem score_table_in_bank_order (models : dict (option GaussianHMM))
    (x : matrix) (ls : list nat) :
  NoDup (dict_keys models) ->
  score_table E models (x, ls) =
  map (fun entry =>
         (fst entry,
          match py_score E (snd entry) x ls with
          | Ok logL => logL
          | Raise _ => PyFloat.neg_inf
          end)) models.
Proof.
  intros Hnd. exact (score_table_map E models x ls Hnd).
Qed.

(** X16.  A word whose score on an item is strictly greater than the score
    of every other word of the table is the guess for that item. *)
Theorem recognize_strict_winner (models : dict (option GaussianHMM))
    (item : Xlengths) (w : string) (v : float) :
  dict_getitem (score_table E models item) w = Ok v ->
  (forall w' v',
      w' <> w -> dict_getitem (score_table E models item) w' = Ok v' ->
      PyFloat.gt v v' = true) ->
  best_guess (score_table E models item) = Ok w.
Proof.
  intros Hw Hwin.
  assert (Hne : models <> []).
  { intros ->. destruct item as [x ls]. simpl in Hw. discriminate. }
  destruct (best_guess_total E models item Hne) as (g & Hg & _).
  rewrite Hg. f_equal.
  destruct (String.eqb_spec g w) as [Heq|Hneq]; [exact Heq|exfalso].
  apply best_guess_first_max in Hg.
  destruct Hg as (l1 & l2 & vg & _ & Hvg & _ & Hall).
  pose proof (Hwin g vg Hneq Hvg) as Hgt.
  destruct (Hall w v Hw) as [Hngt _]. congruence.
Qed.

(** X17.  On a bank that is not empty, recognising a test set in two
    batches and concatenating the results gives what recognising it at
    once gives: no item's table or guess depends on the other items. *)
Theorem recognize_in_batches (models : dict (option GaussianHMM))
    (items1 items2 : list (Z * Xlengths)) :
  models <> [] ->
  exists tables1 guesses1 tables2 guesses2,
    recognize E models (mkSinglesData items1) = Ok (tables1, guesses1) /\
    recognize E models (mkSinglesData items2) = Ok (tables2, guesses2) /\
    recognize E models (mkSinglesData (items1 ++ items2)) =
      Ok (tables1 ++ tables2, guesses1 ++ guesses2).
Proof.
  intros Hne. rewrite !recognize_Ok by assumption. simpl.
  do 4 eexists. split; [reflexivity|]. split; [reflexivity|].
  rewrite !map_app. reflexivity.
Qed.

End MoreRecognizer.

(* ------------------------------------------------------------------ *)
(** ** The further properties on concrete inputs *)

Open Scope string_scope.

Lemma SelectorBIC_select_first_minimum_witness :
  SelectorBIC_select E_ok (sel_cat 2 3) = Ok (Some (hmm 2)) /\
  exists n b,
    (2 <= n <= 3)%Z /\
    is_BIC_candidate E_ok (sel_cat 2 3) n (hmm 2) b /\
    forall n' m' b',
      (2 <= n' < n)%Z ->
      is_BIC_candidate E_ok (sel_cat 2 3) n' m' b' -> PyFloat.le b' b = false.
Proof.
  split; [by_computation|].
  apply (SelectorBIC_select_first_minimum E_ok (sel_cat 2 3) (hmm 2)).
  by_computation.
Defined.

Lemma empty_range_selects_nothing_witness :
  (max_n_components (sel_cat 3 2) < min_n_components (sel_cat 3 2))%Z /\
  SelectorBIC_select E_ok (sel_cat 3 2) = Ok None /\
  SelectorDIC_select E_ok (sel_cat 3 2) = Ok None /\
  CV_best_num_components E_ok (sel_cat 3 2) = None /\
  SelectorCV_select E_ok (sel_cat 3 2) = base_model E_ok (sel_cat 3 2) None.
Proof.
  assert (H : (max_n_components (sel_cat 3 2) < min_n_components (sel_cat 3 2))%Z)
    by (simpl; lia).
  split; [exact H|].
  exact (empty_range_selects_nothing E_ok (sel_cat 3 2) H).
Defined.

Lemma selection_ignores_other_words_witness :
  hwords (sel_cat 2 3) <> hwords (sel_cat_in_pair 2 3) /\
  SelectorConstant_select E_ok (sel_cat 2 3) =
    SelectorConstant_select E_ok (sel_cat_in_pair 2 3) /\
  SelectorBIC_select E_ok (sel_cat 2 3) =
    SelectorBIC_select E_ok (sel_cat_in_pair 2 3) /\
  SelectorCV_select E_ok (sel_cat 2 3) =
    SelectorCV_select E_ok (sel_cat_in_pair 2 3).
Proof.
  split; [discriminate|].
  exact (selection_ignores_other_words E_ok (sel_cat 2 3) (sel_cat_in_pair 2 3)
           eq_refl eq_refl eq_refl eq_refl eq_refl eq_refl eq_refl).
Defined.

Lemma anti_logL_vec_other_words_witness :
  anti_logL_vec E_ok (sel_cat_dog 2 3) (Some (hmm 2)) = Ok [(-4)%float] /\
  Forall2 (fun entry logL =>
             In entry (hwords (sel_cat_dog 2 3)) /\
             fst entry <> this_word (sel_cat_dog 2 3) /\
             engine_score E_ok (hmm 2) (fst (snd entry)) (snd (snd entry))
             = Ok logL)
          (other_words (sel_cat_dog 2 3)) [(-4)%float] /\
  (NoDup (dict_keys (hwords (sel_cat_dog 2 3))) ->
   In (this_word (sel_cat_dog 2 3)) (dict_keys (hwords (sel_cat_dog 2 3))) ->
   S (List.length [(-4)%float]) = List.length (hwords (sel_cat_dog 2 3))).
Proof.
  assert (H : anti_logL_vec E_ok (sel_cat_dog 2 3) (Some (hmm 2))
              = Ok [(-4)%float]) by by_computation.
  split; [exact H|].
  exact (anti_logL_vec_other_words E_ok (sel_cat_dog 2 3) (hmm 2) _ H).
Defined.

Lemma DIC_candidate_dropped_on_anti_failure_witness :
  base_model E_dog_raises (sel_cat_dog 2 3) (Some 2%Z) = Ok (Some (hmm 2)) /\
  In ("DOG", (X_dog, [1])) (hwords (sel_cat_dog 2 3)) /\
  "DOG" <> this_word (sel_cat_dog 2 3) /\
  engine_score E_dog_raises (hmm 2) X_dog [1] = Raise ValueError /\
  (exists e', DIC_try E_dog_raises (sel_cat_dog 2 3) 2 = Raise e') /\
  forall st, DIC_step E_dog_raises (sel_cat_dog 2 3) st 2 = st.
Proof.
  assert (Hb : base_model E_dog_raises (sel_cat_dog 2 3) (Some 2%Z)
               = Ok (Some (hmm 2))) by by_computation.
  assert (Hin : In ("DOG", (X_dog, [1])) (hwords (sel_cat_dog 2 3)))
    by (right; left; reflexivity).
  assert (Hw : "DOG" <> this_word (sel_cat_dog 2 3)) by discriminate.
  assert (Hs : engine_score E_dog_raises (hmm 2) X_dog [1] = Raise ValueError)
    by by_computation.
  split; [exact Hb|]. split; [exact Hin|]. split; [exact Hw|].
  split; [exact Hs|].
  exact (DIC_candidate_dropped_on_anti_failure E_dog_raises (sel_cat_dog 2 3)
           2 (hmm 2) "DOG" X_dog [1] ValueError Hb Hin Hw Hs).
Defined.

Lemma SelectorDIC_alone_selects_nothing_witness :
  other_words (sel_cat 2 3) = [] /\
  PyFloat.is_nan (np_mean E_ok []) = true /\
  SelectorDIC_select E_ok (sel_cat 2 3) = Ok None.
Proof.
  assert (Ho : other_words (sel_cat 2 3) = []) by reflexivity.
  assert (Hn : PyFloat.is_nan (np_mean E_ok []) = true) by by_computation.
  split; [exact Ho|]. split; [exact Hn|].
  exact (SelectorDIC_alone_selects_nothing E_ok (sel_cat 2 3) Ho Hn).
Defined.

Lemma cv_logL_vec_one_score_per_fold_witness :
  cv_logL_vec E_ok (sel_cat_dog 2 3) 2 = Ok [(-1)%float; (-1)%float] /\
  List.length [(-1)%float; (-1)%float] =
  if (1 <? List.length (sequences (sel_cat_dog 2 3)))%nat
  then cv_n_splits (sel_cat_dog 2 3) else 1.
Proof.
  assert (H : cv_logL_vec E_ok (sel_cat_dog 2 3) 2
              = Ok [(-1)%float; (-1)%float]) by by_computation.
  split; [exact H|].
  exact (cv_logL_vec_one_score_per_fold E_ok (sel_cat_dog 2 3) 2 _ H).
Defined.

Lemma cv_fold_fails_only_in_engine_witness :
  KFold_split (cv_n_splits (sel_cat_dog 2 3))
              (List.length (sequences (sel_cat_dog 2 3)))
    = Ok [([1], [0]); ([0], [1])] /\
  In ([1], [0]) [([1], [0]); ([0], [1])] /\
  (forall i, In i [1] -> ~ In i [0]) /\
  exists X_train lengths_train X_test lengths_test,
    combine_sequences [1] (sequences (sel_cat_dog 2 3))
      = Ok (X_train, lengths_train) /\
    combine_sequences [0] (sequences (sel_cat_dog 2 3))
      = Ok (X_test, lengths_test) /\
    list_sum lengths_train = List.length X_train /\
    list_sum lengths_test = List.length X_test /\
    lengths_test <> [] /\
    cv_fold E_ok (sel_cat_dog 2 3) 2 ([1], [0]) =
      (hmm_model <- GaussianHMM_fit E_ok
                      (GaussianHMM_new (Some 2%Z)
                         (random_state (sel_cat_dog 2 3)))
                      X_train lengths_train ;;
       engine_score E_ok hmm_model X_test lengths_test).
Proof.
  assert (Hk : KFold_split (cv_n_splits (sel_cat_dog 2 3))
                 (List.length (sequences (sel_cat_dog 2 3)))
               = Ok [([1], [0]); ([0], [1])]) by by_computation.
  assert (Hin : In ([1], [0]) [([1], [0]); ([0], [1])])
    by (left; reflexivity).
  split; [exact Hk|]. split; [exact Hin|].
  exact (cv_fold_fails_only_in_engine E_ok (sel_cat_dog 2 3) 2 _ _ Hk Hin).
Defined.

Lemma cv_folds_hold_out_each_sequence_once_witness :
  KFold_split (cv_n_splits (sel_cat_dog 2 3))
              (List.length (sequences (sel_cat_dog 2 3)))
    = Ok [([1], [0]); ([0], [1])] /\
  List.concat (map snd [([1], [0]); ([0], [1])]) =
  seq 0 (List.length (sequences (sel_cat_dog 2 3))).
Proof.
  assert (Hk : KFold_split (cv_n_splits (sel_cat_dog 2 3))
                 (List.length (sequences (sel_cat_dog 2 3)))
               = Ok [([1], [0]); ([0], [1])]) by by_computation.
  split; [exact Hk|].
  exact (cv_folds_hold_out_each_sequence_once (sel_cat_dog 2 3) _ Hk).
Defined.

Lemma SelectorCV_select_None_iff_witness :
  fit_rejects_None E_raise_all /\
  SelectorCV_select E_raise_all (sel_cat_dog 2 3) = Ok None /\
  ((forall n avg,
       (2 <= n <= 3)%Z ->
       CV_try E_raise_all (sel_cat_dog 2 3) n = Ok avg ->
       PyFloat.gt avg PyFloat.neg_inf = false)
   \/
   (exists n e,
       CV_best_num_components E_raise_all (sel_cat_dog 2 3) = Some n /\
       engine_fit E_raise_all (GaussianHMM_new (Some n) 14)
                  (X_cat ++ X_cat)%list [1; 1] = Raise e)).
Proof.
  assert (HN : fit_rejects_None E_raise_all)
    by apply table_engine_rejects_None.
  assert (Hs : SelectorCV_select E_raise_all (sel_cat_dog 2 3) = Ok None)
    by by_computation.
  split; [exact HN|]. split; [exact Hs|].
  exact (proj1 (SelectorCV_select_None_iff E_raise_all (sel_cat_dog 2 3) HN) Hs).
Defined.

Lemma recognize_guess_falls_on_first_word_witness :
  NoDup (dict_keys bank_cat_dog) /\
  (forall w M, In (w, M) bank_cat_dog ->
               exists e, py_score E_raise_all M X_cat [1] = Raise e) /\
  best_guess (score_table E_raise_all bank_cat_dog (X_cat, [1])) = Ok "CAT".
Proof.
  assert (Hnd : NoDup (dict_keys bank_cat_dog)).
  { repeat constructor; simpl; intuition discriminate. }
  assert (Hf : forall w M, In (w, M) bank_cat_dog ->
                           exists e, py_score E_raise_all M X_cat [1] = Raise e).
  { intros w M [H|[H|[]]]; inversion H; subst; exists ValueError; reflexivity. }
  split; [exact Hnd|]. split; [exact Hf|].
  exact (proj2 (recognize_guess_falls_on_first_word E_raise_all "CAT"
                  (Some (hmm 2)) [("DOG", Some (hmm 3))] X_cat [1] Hnd) Hf).
Defined.

Lemma score_table_in_bank_order_witness :
  NoDup (dict_keys bank_cat_dog) /\
  score_table E_raise2 bank_cat_dog (X_cat, [1]) =
  map (fun entry =>
         (fst entry,
          match py_score E_raise2 (snd entry) X_cat [1] with
          | Ok logL => logL
          | Raise _ => PyFloat.neg_inf
          end)) bank_cat_dog.
Proof.
  assert (Hnd : NoDup (dict_keys bank_cat_dog)).
  { repeat constructor; simpl; intuition discriminate. }
  split; [exact Hnd|].
  exact (score_table_in_bank_order E_raise2 bank_cat_dog X_cat [1] Hnd).
Defined.

Lemma recognize_strict_winner_witness :
  dict_getitem (score_table E_ok bank_cat_dog (X_cat, [1])) "CAT"
    = Ok (-1)%float /\
  (forall w' v',
      w' <> "CAT" ->
      dict_getitem (score_table E_ok bank_cat_dog (X_cat, [1])) w' = Ok v' ->
      PyFloat.gt (-1) v' = true) /\
  best_guess (score_table E_ok bank_cat_dog (X_cat, [1])) = Ok "CAT".
Proof.
  assert (Hw : dict_getitem (score_table E_ok bank_cat_dog (X_cat, [1])) "CAT"
               = Ok (-1)%float) by by_computation.
  assert (Hwin : forall w' v',
             w' <> "CAT" ->
             dict_getitem (score_table E_ok bank_cat_dog (X_cat, [1])) w'
             = Ok v' ->
             PyFloat.gt (-1) v' = true).
  { intros w' v' Hne H.
    replace (score_table E_ok bank_cat_dog (X_cat, [1]))
      with [("CAT", (-1)%float); ("DOG", (-1.5)%float)] in H
      by by_computation.
    cbn [dict_getitem] in H.
    destruct (String.eqb_spec "CAT" w') as [Heq|_]; [congruence|].
    destruct (String.eqb_spec "DOG" w') as [_|_]; [|discriminate].
    inversion H; subst. by_computation. }
  split; [exact Hw|]. split; [exact Hwin|].
  exact (recognize_strict_winner E_ok bank_cat_dog (X_cat, [1]) "CAT" _ Hw Hwin).
Defined.

Lemma recognize_in_batches_witness :
  bank_cat_dog <> [] /\
  exists tables1 guesses1 tables2 guesses2,
    recognize E_ok bank_cat_dog (mkSinglesData [(0%Z, (X_cat, [1]))])
      = Ok (tables1, guesses1) /\
    recognize E_ok bank_cat_dog (mkSinglesData [(1%Z, (X_dog, [1]))])
      = Ok (tables2, guesses2) /\
    recognize E_ok bank_cat_dog
              (mkSinglesData ([(0%Z, (X_cat, [1]))] ++ [(1%Z, (X_dog, [1]))])%list)
      = Ok ((tables1 ++ tables2)%list, (guesses1 ++ guesses2)%list).
Proof.
  assert (Hne : bank_cat_dog <> []) by discriminate.
  split; [exact Hne|].
  exact (recognize_in_batches E_ok bank_cat_dog _ _ Hne).
Defined.
